(** * NEO Tracker: the asteroid risk-scoring engine

    A shallow embedding of [backend/app/services/risk_calculator.py] and of
    the exception decorator of [backend/app/core/exceptions.py].

    Python [float]s are IEEE-754 binary64 values; they are modelled by
    Rocq's primitive floats, which are the same format with the same
    round-to-nearest-even arithmetic, so that literals such as [0.37] or
    [0.3] denote the very doubles the interpreter uses and [nan], the
    infinities and the signed zeros are part of the input space.
    The impact-energy estimator, whose value goes through [math.pi] and the
    power operator of the C library, is given both on the doubles (with
    the power operator as a parameter) and as the formula over the real
    numbers. *)

From Stdlib Require Import ZArith Bool List String Lia.
From Stdlib Require Import Floats DecimalString.
From Stdlib Require Import Reals Lra Machin.
Import ListNotations.

Set Warnings "-inexact-float".

(* ================================================================== *)
(** * Python runtime: exceptions and results *)

Module Py.

(** The built-in exceptions the engine can meet.  Each carries the message
    the interpreter attaches to it. *)
Inductive builtin_exception : Type :=
| OverflowError (msg : string)
| TypeError (msg : string)
| ZeroDivisionError (msg : string)
| ValueError (msg : string).

(** The classes of [app.core.exceptions] rooted at [NEOTrackerException]. *)
Inductive neo_class : Type :=
| NEOTrackerException
| NASAAPIError
| ExternalAPIError
| DataProcessingError
| DataValidationError
| DataTransformationError
| DatabaseError
| RiskCalculationError
| InvalidDateRangeError.

(** An instance of [NEOTrackerException] or of one of its subclasses:
    [__init__] stores [message], [details or {}] and [original_exception]. *)
Record neo_exception : Type := mk_neo_exception {
  cls : neo_class;
  message : string;
  details : list (string * string);
  original_exception : option builtin_exception
}.

Inductive exception : Type :=
| Builtin (e : builtin_exception)
| NEOTracker (e : neo_exception).

(** A computation either raises or returns. *)
Definition result (A : Type) : Type := (exception + A)%type.

Definition ret {A} (a : A) : result A := inr a.
Definition raise {A} (e : exception) : result A := inl e.
Definition bind {A B} (m : result A) (k : A -> result B) : result B :=
  match m with
  | inl e => inl e
  | inr a => k a
  end.

(** The outcome of a call into the C library: only built-in exceptions. *)
Definition builtin_result (A : Type) : Type := (builtin_exception + A)%type.

Definition lift {A} (m : builtin_result A) : result A :=
  match m with
  | inl e => inl (Builtin e)
  | inr a => inr a
  end.

Definition is_RiskCalculationError (c : neo_class) : bool :=
  match c with
  | RiskCalculationError => true
  | _ => false
  end.

End Py.

Declare Scope py_scope.
Delimit Scope py_scope with py.
Notation "x <- m ;; k" := (Py.bind m (fun x => k))
  (at level 61, m at next level, right associativity) : py_scope.
Notation "' pat <- m ;; k" := (Py.bind m (fun x => match x with pat => k end))
  (at level 61, pat pattern, m at next level, right associativity) : py_scope.

(* ================================================================== *)
(** * Python floats *)

Module PyFloat.

Local Open Scope float_scope.

(** [bool(x)] for a float: false exactly for the two zeros; [nan] is true. *)
Definition truthy (x : float) : bool := negb (x =? 0).

(** [min(a, b)] and [max(a, b)] of two arguments: the builtin keeps the
    first argument unless the second compares strictly below (above) it. *)
Definition py_min (a b : float) : float := if b <? a then b else a.
Definition py_max (a b : float) : float := if a <? b then b else a.

(** Nearest integer to [a / b], ties to the even one ([0 <= a], [0 < b]). *)
Definition div_half_even (a b : Z) : Z :=
  let q := (a / b)%Z in
  let r := (a mod b)%Z in
  match (2 * r ?= b)%Z with
  | Lt => q
  | Gt => (q + 1)%Z
  | Eq => if Z.even q then q else (q + 1)%Z
  end.

Definition Z2SF (z : Z) : spec_float :=
  match z with
  | Z0 => S754_zero false
  | Zpos p => S754_finite false p 0
  | Zneg p => S754_finite true p 0
  end.

(** The correctly rounded quotient of two integers, as [int / int] and the
    decimal-to-double conversion compute it. *)
Definition Z_truediv (a b : Z) : float :=
  SF2Prim (SFdiv prec emax (Z2SF a) (Z2SF b)).

(** [round(x, ndigits)] for [0 <= ndigits]: the exact value of [x] is
    rounded half-even to [ndigits] decimals and the decimal is converted
    back to the nearest double; zeros, infinities and [nan] are returned
    unchanged and the sign is kept. *)
Definition round (x : float) (ndigits : Z) : float :=
  match Prim2SF x with
  | S754_finite s m e =>
      let scale := (10 ^ ndigits)%Z in
      let q := if (0 <=? e)%Z
               then (Zpos m * 2 ^ e * scale)%Z
               else div_half_even (Zpos m * scale) (2 ^ (- e)) in
      let r := SFdiv prec emax (Z2SF q) (Z2SF scale) in
      SF2Prim (if s then SFopp r else r)
  | _ => x
  end.

(** Identity of two doubles that are not [nan]: the same class and, for
    finite ones, the same sign, mantissa and exponent. *)
Definition eqb_float (x y : float) : bool :=
  match Prim2SF x, Prim2SF y with
  | S754_zero s, S754_zero s' => Bool.eqb s s'
  | S754_infinity s, S754_infinity s' => Bool.eqb s s'
  | S754_finite s m e, S754_finite s' m' e' =>
      Bool.eqb s s' && Pos.eqb m m' && Z.eqb e e'
  | _, _ => false
  end.

(** [math.sqrt] on a non-negative argument. *)
Definition math_sqrt (x : float) : float := PrimFloat.sqrt x.

End PyFloat.

(* ================================================================== *)
(** * [datetime] and [timedelta] *)

Module Datetime.

Local Open Scope string_scope.
Local Open Scope Z_scope.

(** The calendar fields of a [datetime]. *)
Record civil : Type := mk_civil {
  year : Z;
  month : Z;
  day : Z;
  hour : Z;
  minute : Z;
  second : Z;
  microsecond : Z
}.

(** A [datetime]: its fields and its [tzinfo], given by the UTC offset in
    microseconds; [None] is a naive datetime. *)
Record datetime : Type := mk_datetime {
  fields : civil;
  tzinfo : option Z
}.

(** A [timedelta], normalised as the interpreter keeps it:
    [0 <= seconds < 86400] and [0 <= microseconds < 10^6]. *)
Record timedelta : Type := mk_timedelta {
  days : Z;
  seconds : Z;
  microseconds : Z
}.

Definition timezone_utc : Z := 0.

(** [datetime.now(tz)]: the wall clock read in the zone [tz]. *)
Definition now (clock : civil) (tz : Z) : datetime :=
  {| fields := clock; tzinfo := Some tz |}.

Definition is_leap (y : Z) : bool :=
  (y mod 4 =? 0) && (negb (y mod 100 =? 0) || (y mod 400 =? 0)).

Definition days_before_year (y : Z) : Z :=
  let y' := y - 1 in
  y' * 365 + y' / 4 - y' / 100 + y' / 400.

Definition DAYS_BEFORE_MONTH : list Z :=
  [0; 31; 59; 90; 120; 151; 181; 212; 243; 273; 304; 334].

Definition days_before_month (y m : Z) : Z :=
  nth (Z.to_nat (m - 1)) DAYS_BEFORE_MONTH 0
  + (if (2 <? m) && is_leap y then 1 else 0).

(** Proleptic Gregorian ordinal, 0001-01-01 being day 1. *)
Definition ymd2ord (y m d : Z) : Z :=
  days_before_year y + days_before_month y m + d.

(** Microseconds since the start of day 0, the offset [off] removed. *)
Definition to_microseconds (c : civil) (off : Z) : Z :=
  ((ymd2ord (year c) (month c) (day c) * 86400
    + hour c * 3600 + minute c * 60 + second c) * 1000000
   + microsecond c) - off.

Definition timedelta_of_microseconds (us : Z) : timedelta :=
  {| days := us / 86400000000;
     seconds := (us mod 86400000000) / 1000000;
     microseconds := us mod 1000000 |}.

(** [a < b] on datetimes: naive with naive, aware with aware (as instants);
    a mixed comparison raises. *)
Definition lt (a b : datetime) : Py.result bool :=
  match tzinfo a, tzinfo b with
  | None, None =>
      Py.ret (to_microseconds (fields a) 0 <? to_microseconds (fields b) 0)
  | Some oa, Some ob =>
      Py.ret (to_microseconds (fields a) oa <? to_microseconds (fields b) ob)
  | _, _ =>
      Py.raise (Py.Builtin (Py.TypeError
        "can't compare offset-naive and offset-aware datetimes"))
  end.

(** [a - b] on datetimes. *)
Definition sub (a b : datetime) : Py.result timedelta :=
  match tzinfo a, tzinfo b with
  | None, None =>
      Py.ret (timedelta_of_microseconds
                (to_microseconds (fields a) 0 - to_microseconds (fields b) 0))
  | Some oa, Some ob =>
      Py.ret (timedelta_of_microseconds
                (to_microseconds (fields a) oa - to_microseconds (fields b) ob))
  | _, _ =>
      Py.raise (Py.Builtin (Py.TypeError
        "can't subtract offset-naive and offset-aware datetimes"))
  end.

(** [timedelta.total_seconds()]: an integer true division. *)
Definition total_seconds (d : timedelta) : float :=
  PyFloat.Z_truediv
    ((days d * 86400 + seconds d) * 1000000 + microseconds d) 1000000.

End Datetime.

(* ================================================================== *)
(** * [app.core.exceptions]: the [handle_exceptions] decorator *)

Module Exceptions.

Import Py.
Local Open Scope string_scope.

(** [wrapper] of [handle_exceptions(reraise_as)]: the outcome of the
    decorated call is passed through, an exception
    of the tracker's own hierarchy is re-raised as it is, and any other
    exception is raised again as [reraise_as] (or as the base class when
    none is given) with the function's name and the original exception. *)
Definition handle_exceptions {Args A : Type}
    (reraise_as : option neo_class) (func_name : string)
    (func : Args -> result A) : Args -> result A :=
  fun args =>
    match func args with
    | inr v => inr v
    | inl (NEOTracker e) => inl (NEOTracker e)
    | inl (Builtin e) =>
        match reraise_as with
        | Some c =>
            inl (NEOTracker
                   {| cls := c;
                      message := "Error in " ++ func_name;
                      details := [("function", func_name)];
                      original_exception := Some e |})
        | None =>
            inl (NEOTracker
                   {| cls := NEOTrackerException;
                      message := "Unexpected error in " ++ func_name;
                      details := [("function", func_name)];
                      original_exception := Some e |})
        end
    end.

End Exceptions.

(* ================================================================== *)
(** * [app.config.settings]: the three risk thresholds of [Settings] *)

Module Settings.

Record Settings : Type := mk_Settings {
  risk_threshold_distance_km : float;
  risk_threshold_diameter_km : float;
  risk_threshold_velocity_kmh : float
}.

(** The field defaults of [Settings]. *)
Definition default : Settings :=
  {| risk_threshold_distance_km := 7500000.0;
     risk_threshold_diameter_km := 0.14;
     risk_threshold_velocity_kmh := 25000.0 |}.

End Settings.

(* ================================================================== *)
(** * [app.services.risk_calculator] *)

Module RiskCalculator.

Import Py PyFloat.
Local Open Scope string_scope.
Local Open Scope float_scope.
Local Open Scope py_scope.

(** ** Data model *)

(** [RiskThresholds]: the whole numbers among the defaults are exactly
    representable, so a comparison with them is the comparison of doubles. *)
Record RiskThresholds : Type := mk_RiskThresholds {
  distance_critical : float;
  distance_very_high : float;
  distance_high : float;
  distance_medium : float;
  distance_low : float;
  diameter_critical : float;
  diameter_very_high : float;
  diameter_high : float;
  diameter_medium : float;
  diameter_low : float;
  velocity_critical : float;
  velocity_very_high : float;
  velocity_high : float;
  velocity_medium : float;
  velocity_low : float;
  time_critical : float;
  time_very_high : float;
  time_high : float;
  time_medium : float
}.

(** [RiskThresholds()]: the dataclass defaults. *)
Definition default_thresholds : RiskThresholds :=
  {| distance_critical := 100000;
     distance_very_high := 384400;
     distance_high := 1926000;
     distance_medium := 7704000;
     distance_low := 77040000;
     diameter_critical := 10.0;
     diameter_very_high := 1.0;
     diameter_high := 0.14;
     diameter_medium := 0.05;
     diameter_low := 0.01;
     velocity_critical := 200000;
     velocity_very_high := 100000;
     velocity_high := 50000;
     velocity_medium := 25000;
     velocity_low := 10000;
     time_critical := 7;
     time_very_high := 30;
     time_high := 365;
     time_medium := 3650 |}.

(** [RiskThresholds.from_settings()]: three fields overridden. *)
Definition from_settings (settings : Settings.Settings) : RiskThresholds :=
  {| distance_critical := distance_critical default_thresholds;
     distance_very_high := distance_very_high default_thresholds;
     distance_high := Settings.risk_threshold_distance_km settings;
     distance_medium := distance_medium default_thresholds;
     distance_low := distance_low default_thresholds;
     diameter_critical := diameter_critical default_thresholds;
     diameter_very_high := diameter_very_high default_thresholds;
     diameter_high := Settings.risk_threshold_diameter_km settings;
     diameter_medium := diameter_medium default_thresholds;
     diameter_low := diameter_low default_thresholds;
     velocity_critical := velocity_critical default_thresholds;
     velocity_very_high := velocity_very_high default_thresholds;
     velocity_high := Settings.risk_threshold_velocity_kmh settings;
     velocity_medium := velocity_medium default_thresholds;
     velocity_low := velocity_low default_thresholds;
     time_critical := time_critical default_thresholds;
     time_very_high := time_very_high default_thresholds;
     time_high := time_high default_thresholds;
     time_medium := time_medium default_thresholds |}.

Inductive RiskFactor : Type :=
| SIZE
| DISTANCE
| VELOCITY
| TIME_TO_APPROACH
| NASA_CLASSIFICATION
| ORBIT_UNCERTAINTY
| IMPACT_PROBABILITY.

(** [RiskFactor.X.value] *)
Definition value (f : RiskFactor) : string :=
  match f with
  | SIZE => "size"
  | DISTANCE => "distance"
  | VELOCITY => "velocity"
  | TIME_TO_APPROACH => "time_to_approach"
  | NASA_CLASSIFICATION => "nasa_classification"
  | ORBIT_UNCERTAINTY => "orbit_uncertainty"
  | IMPACT_PROBABILITY => "impact_probability"
  end.

(** [time_to_approach] is an [int] for a past approach and a [float] for a
    future one. *)
Inductive number : Type :=
| NInt (z : Z)
| NFloat (f : float).

(** A [Dict[str, float]] in insertion order. *)
Definition dict : Type := list (string * float).

Fixpoint dict_set (d : dict) (k : string) (v : float) : dict :=
  match d with
  | [] => [(k, v)]
  | (k', v') :: rest =>
      if String.eqb k' k then (k', v) :: rest
      else (k', v') :: dict_set rest k v
  end.

Fixpoint dict_get (d : dict) (k : string) (default : float) : float :=
  match d with
  | [] => default
  | (k', v') :: rest => if String.eqb k' k then v' else dict_get rest k default
  end.

Definition dict_values (d : dict) : list float := map snd d.

(** [sum(xs)]: the running total, from [0].  (The compensated summation of
    recent interpreters returns the same double whenever the partial sums
    are exact, as they are for the factor scores.) *)
Definition sum (xs : list float) : float :=
  fold_left PrimFloat.add xs 0.

Record RiskAnalysis : Type := mk_RiskAnalysis {
  overall_score : float;
  risk_level : string;
  confidence : float;
  factor_scores : dict;
  primary_concerns : list string;
  risk_factors : list string;
  mitigating_factors : list string;
  time_to_approach_days : option number;
  approach_decade : option string;
  monitoring_priority : string;
  observation_frequency : string
}.

(** Values of a [Dict[str, Any]] that are not read by the engine. *)
Inductive py_object : Type :=
| PyNone
| PyBool (b : bool)
| PyInt (z : Z)
| PyFloatObj (f : float)
| PyStr (s : string).

(** The arguments of one call of [calculate_risk], after binding: a
    keyword that is not given has its default, and the keywords that name
    no parameter are collected in [additional_factors].  The numeric
    parameters are annotated [Optional[float]]; a whole number passed for
    one of them stands for the double of the same value. *)
Record kwargs : Type := mk_kwargs {
  diameter_km : option float;
  miss_distance_km : option float;
  velocity_kmh : option float;
  approach_date : option Datetime.datetime;
  is_potentially_hazardous : bool;
  is_sentry_object : bool;
  absolute_magnitude : option float;
  additional_factors : list (string * py_object)
}.

(** [AsteroidRiskCalculator]: the instance holds its thresholds. *)
Record AsteroidRiskCalculator : Type := mk_AsteroidRiskCalculator {
  thresholds : RiskThresholds
}.

(** [__init__]: [thresholds or RiskThresholds.from_settings()]; a dataclass
    instance is always true. *)
Definition init (settings : Settings.Settings)
    (thresholds : option RiskThresholds) : AsteroidRiskCalculator :=
  {| thresholds := match thresholds with
                   | Some t => t
                   | None => from_settings settings
                   end |}.

(** [bool(x)] for an optional number. *)
Definition truthy_opt (x : option float) : bool :=
  match x with
  | None => false
  | Some v => truthy v
  end.

Definition truthy_number (x : option number) : bool :=
  match x with
  | None => false
  | Some (NInt z) => negb (z =? 0)%Z
  | Some (NFloat f) => truthy f
  end.

(** [float(k)] for a whole number [k]. *)
Definition of_int (k : Z) : float := PyFloat.Z_truediv k 1.

(** [lo < t] and [t < hi] for [t] an [int] or a [float] and a whole bound
    that is exactly representable. *)
Definition number_gt (t : number) (lo : Z) : bool :=
  match t with
  | NInt z => (lo <? z)%Z
  | NFloat f => (of_int lo <? f)%float
  end.

Definition number_lt (t : number) (hi : Z) : bool :=
  match t with
  | NInt z => (z <? hi)%Z
  | NFloat f => (f <? of_int hi)%float
  end.

(** [x and p(x)] for an optional float: [None] and the zeros are false. *)
Definition and_then (x : option float) (p : float -> bool) : bool :=
  match x with
  | None => false
  | Some v => truthy v && p v
  end.

(** [t and p(t)] for an optional [int] or [float]. *)
Definition and_then_number (t : option number) (p : number -> bool) : bool :=
  truthy_number t &&
  match t with
  | None => false
  | Some n => p n
  end.

(** [l.append(x)] *)
Definition append {A : Type} (l : list A) (x : A) : list A := (l ++ [x])%list.

(** The f-string of a whole number. *)
Definition str_of_int (z : Z) : string := NilZero.string_of_int (Z.to_int z).

(** ** The calculator *)

Section Calculator.

(** The power operator on floats, which is the C library's [pow]: it
    returns a double or raises [OverflowError]. *)
Variable float_pow : float -> float -> builtin_result float.

Variable self : AsteroidRiskCalculator.

Definition _estimate_diameter_from_magnitude (absolute_magnitude : float)
  : result float :=
  let albedo := 0.25 in
  p <- lift (float_pow 10 (-0.2 * absolute_magnitude)) ;;
  let diameter_km := (1329 / math_sqrt albedo) * p in
  ret diameter_km.

(** The band ladder of [_calculate_size_score], on the diameter that is
    given or was estimated. *)
Definition size_bands (diameter_km : float) : float :=
  if diameter_critical (thresholds self) <=? diameter_km then 25.0
  else if diameter_very_high (thresholds self) <=? diameter_km then 22.0
  else if diameter_high (thresholds self) <=? diameter_km then 18.0
  else if diameter_medium (thresholds self) <=? diameter_km then 12.0
  else if diameter_low (thresholds self) <=? diameter_km then 6.0
  else 2.0.

Definition _calculate_size_score
    (diameter_km absolute_magnitude : option float) : result float :=
  match diameter_km with
  | None =>
      match absolute_magnitude with
      | Some h =>
          diameter_km <- _estimate_diameter_from_magnitude h ;;
          ret (size_bands diameter_km)
      | None => ret 0.0
      end
  | Some diameter_km => ret (size_bands diameter_km)
  end.

Definition _calculate_distance_score (miss_distance_km : option float)
  : float :=
  match miss_distance_km with
  | None => 0.0
  | Some miss_distance_km =>
      if miss_distance_km <=? distance_critical (thresholds self) then 25.0
      else if miss_distance_km <=? distance_very_high (thresholds self)
      then 20.0
      else if miss_distance_km <=? distance_high (thresholds self) then 15.0
      else if miss_distance_km <=? distance_medium (thresholds self)
      then 10.0
      else if miss_distance_km <=? distance_low (thresholds self) then 5.0
      else 1.0
  end.

Definition _calculate_velocity_score (velocity_kmh : option float) : float :=
  match velocity_kmh with
  | None => 0.0
  | Some velocity_kmh =>
      if velocity_critical (thresholds self) <=? velocity_kmh then 20.0
      else if velocity_very_high (thresholds self) <=? velocity_kmh
      then 16.0
      else if velocity_high (thresholds self) <=? velocity_kmh then 12.0
      else if velocity_medium (thresholds self) <=? velocity_kmh then 8.0
      else if velocity_low (thresholds self) <=? velocity_kmh then 4.0
      else 1.0
  end.

(** [clock] is the reading of the wall clock (UTC) that
    [datetime.now(timezone.utc)] returns. *)
Definition _calculate_time_score (clock : Datetime.civil)
    (approach_date : option Datetime.datetime)
  : result (float * option number) :=
  match approach_date with
  | None => ret (0.0, None)
  | Some approach_date =>
      let now := Datetime.now clock Datetime.timezone_utc in
      is_past <- Datetime.lt approach_date now ;;
      if is_past : bool then
        delta <- Datetime.sub now approach_date ;;
        let days_past := Datetime.days delta in
        if (days_past <=? 30)%Z
        then ret (8.0, Some (NInt (- days_past)))
        else ret (2.0, Some (NInt (- days_past)))
      else
        time_diff <- Datetime.sub approach_date now ;;
        let days_until := Datetime.total_seconds time_diff / of_int (24 * 3600) in
        if days_until <=? time_critical (thresholds self)
        then ret (15.0, Some (NFloat days_until))
        else if days_until <=? time_very_high (thresholds self)
        then ret (12.0, Some (NFloat days_until))
        else if days_until <=? time_high (thresholds self)
        then ret (8.0, Some (NFloat days_until))
        else if days_until <=? time_medium (thresholds self)
        then ret (4.0, Some (NFloat days_until))
        else ret (1.0, Some (NFloat days_until))
  end.

Definition _calculate_nasa_classification_score
    (is_potentially_hazardous is_sentry_object : bool) : float :=
  let score := 0.0 in
  let score := if is_sentry_object then score + 10.0 else score in
  let score := if is_potentially_hazardous then score + 5.0 else score in
  py_min score 15.0.

Definition _apply_modifiers (base_score : float) (factor_scores : dict)
    (diameter_km miss_distance_km : option float) : float * float :=
  let modified_score := base_score in
  let confidence := 1.0 in
  let modified_score :=
    if and_then diameter_km (fun d => 0.5 <? d)
       && and_then miss_distance_km (fun m => m <? 1000000)
    then modified_score + 5.0
    else modified_score in
  let missing_data_penalty := 0.0 in
  let missing_data_penalty :=
    match diameter_km with
    | None => missing_data_penalty + 0.3
    | Some _ => missing_data_penalty
    end in
  let missing_data_penalty :=
    match miss_distance_km with
    | None => missing_data_penalty + 0.2
    | Some _ => missing_data_penalty
    end in
  let confidence := py_max 0.1 (confidence - missing_data_penalty) in
  let final_score := py_max 0.0 (py_min 100.0 modified_score) in
  (final_score, confidence).

Definition _determine_risk_level (score : float) : string :=
  if 90 <=? score then "critical"
  else if 70 <=? score then "very_high"
  else if 50 <=? score then "high"
  else if 30 <=? score then "medium"
  else if 10 <=? score then "low"
  else "very_low".

Definition _analyze_qualitative_factors (factor_scores : dict)
    (diameter_km miss_distance_km velocity_kmh : option float)
    (is_potentially_hazardous : bool) (time_to_approach : option number)
  : list string * list string * list string :=
  let concerns := [] in
  let risk_factors := [] in
  let mitigating := [] in
  let concerns :=
    if and_then diameter_km (fun d => 1.0 <? d)
    then append concerns "Asteroide de gran tamaño con potencial devastador"
    else concerns in
  let concerns :=
    if and_then miss_distance_km (fun m => m <? 400000)
    then append concerns "Aproximación extremadamente cercana"
    else concerns in
  let concerns :=
    if and_then velocity_kmh (fun v => 100000 <? v)
    then append concerns "Velocidad de impacto muy alta"
    else concerns in
  let concerns :=
    if and_then_number time_to_approach
         (fun t => number_gt t 0 && number_lt t 365)
    then append concerns "Aproximación inminente"
    else concerns in
  let risk_factors :=
    if is_potentially_hazardous
    then append risk_factors "Clasificado como Potencialmente Peligroso por NASA"
    else risk_factors in
  let risk_factors :=
    if 15 <? dict_get factor_scores "size" 0
    then append risk_factors "Tamaño significativo"
    else risk_factors in
  let risk_factors :=
    if 15 <? dict_get factor_scores "distance" 0
    then append risk_factors "Proximidad notable a la Tierra"
    else risk_factors in
  let mitigating :=
    if and_then miss_distance_km (fun m => 10000000 <? m)
    then append mitigating "Distancia de paso segura"
    else mitigating in
  let mitigating :=
    if and_then diameter_km (fun d => d <? 0.01)
    then append mitigating "Tamaño muy pequeño, impacto mínimo"
    else mitigating in
  let mitigating :=
    if and_then_number time_to_approach (fun t => number_gt t 3650)
    then append mitigating "Aproximación en futuro distante"
    else mitigating in
  (concerns, risk_factors, mitigating).

Definition _determine_monitoring_recommendations (score : float)
    (risk_level : string) (time_to_approach : option number)
  : string * string :=
  let '(priority, frequency) :=
    if String.eqb risk_level "critical" || String.eqb risk_level "very_high"
    then ("critical", "daily")
    else if String.eqb risk_level "high" then ("high", "weekly")
    else if String.eqb risk_level "medium" then ("medium", "monthly")
    else ("low", "yearly") in
  if and_then_number time_to_approach
       (fun t => number_gt t 0 && number_lt t 30)
  then
    let frequency := "daily" in
    let priority := if String.eqb priority "low" then "medium" else priority in
    (priority, frequency)
  else (priority, frequency).

Definition _determine_approach_decade
    (approach_date : option Datetime.datetime) : option string :=
  match approach_date with
  | None => None
  | Some approach_date =>
      let year := Datetime.year (Datetime.fields approach_date) in
      let decade_start := (year / 10 * 10)%Z in
      Some (str_of_int decade_start ++ "s")
  end.

(** The body of [calculate_risk] (the two log calls, which only report,
    are left out). *)
Definition calculate_risk_body (clock : Datetime.civil) (a : kwargs)
  : result RiskAnalysis :=
  let factor_scores := [] in
  size_score <- _calculate_size_score (diameter_km a) (absolute_magnitude a) ;;
  let factor_scores := dict_set factor_scores (value SIZE) size_score in
  let distance_score := _calculate_distance_score (miss_distance_km a) in
  let factor_scores := dict_set factor_scores (value DISTANCE) distance_score in
  let velocity_score := _calculate_velocity_score (velocity_kmh a) in
  let factor_scores := dict_set factor_scores (value VELOCITY) velocity_score in
  '(time_score, time_to_approach) <-
     _calculate_time_score clock (approach_date a) ;;
  let factor_scores :=
    dict_set factor_scores (value TIME_TO_APPROACH) time_score in
  let nasa_score :=
    _calculate_nasa_classification_score
      (is_potentially_hazardous a) (is_sentry_object a) in
  let factor_scores :=
    dict_set factor_scores (value NASA_CLASSIFICATION) nasa_score in
  let base_score := sum (dict_values factor_scores) in
  let '(final_score, confidence) :=
    _apply_modifiers base_score factor_scores
      (diameter_km a) (miss_distance_km a) in
  let risk_level := _determine_risk_level final_score in
  let '(concerns, risk_factors_list, mitigating) :=
    _analyze_qualitative_factors factor_scores
      (diameter_km a) (miss_distance_km a) (velocity_kmh a)
      (is_potentially_hazardous a) time_to_approach in
  let '(monitoring_priority, observation_freq) :=
    _determine_monitoring_recommendations
      final_score risk_level time_to_approach in
  let approach_decade := _determine_approach_decade (approach_date a) in
  ret {| overall_score := round final_score 1;
         risk_level := risk_level;
         confidence := round confidence 2;
         factor_scores := map (fun kv => (fst kv, round (snd kv) 1)) factor_scores;
         primary_concerns := concerns;
         risk_factors := risk_factors_list;
         mitigating_factors := mitigating;
         time_to_approach_days := time_to_approach;
         approach_decade := approach_decade;
         monitoring_priority := monitoring_priority;
         observation_frequency := observation_freq |}.

(** [calculate_risk], decorated with
    [handle_exceptions(reraise_as=RiskCalculationError)]. *)
Definition calculate_risk (clock : Datetime.civil) : kwargs -> result RiskAnalysis :=
  Exceptions.handle_exceptions (Some RiskCalculationError) "calculate_risk"
    (calculate_risk_body clock).



End Calculator.


(** ** Utility functions *)

(** The placeholder [batch_risk_calculation] appends for a failed item. *)
Definition error_analysis : RiskAnalysis :=
  {| overall_score := 0.0;
     risk_level := "unknown";
     confidence := 0.0;
     factor_scores := [];
     primary_concerns := ["Error en cálculo de riesgo"];
     risk_factors := [];
     mitigating_factors := [];
     time_to_approach_days := None;
     approach_decade := None;
     monitoring_priority := "low";
     observation_frequency := "yearly" |}.

Section Utilities.

Variable float_pow : float -> float -> builtin_result float.
Variable settings : Settings.Settings.

(** The loop of [batch_risk_calculation]: [results] is the list built so
    far and [clock i] the reading of the clock during the [i]-th call.  An
    exception that the [except RiskCalculationError] clause does not catch
    leaves the loop. *)
Fixpoint batch_loop (calculator : AsteroidRiskCalculator)
    (clock : nat -> Datetime.civil) (i : nat)
    (asteroids_data : list kwargs) (results : list RiskAnalysis)
  : result (list RiskAnalysis) :=
  match asteroids_data with
  | [] => ret results
  | asteroid_data :: rest =>
      match calculate_risk float_pow calculator (clock i) asteroid_data with
      | inr analysis =>
          batch_loop calculator clock (S i) rest (append results analysis)
      | inl (NEOTracker e) =>
          if is_RiskCalculationError (cls e)
          then batch_loop calculator clock (S i) rest
                 (append results error_analysis)
          else raise (NEOTracker e)
      | inl e => raise e
      end
  end.

Definition batch_risk_calculation (clock : nat -> Datetime.civil)
    (asteroids_data : list kwargs) : result (list RiskAnalysis) :=
  let calculator := init settings None in
  batch_loop calculator clock 0 asteroids_data [].

Definition quick_risk_assessment (clock : Datetime.civil)
    (diameter_km miss_distance_km : option float)
    (is_potentially_hazardous : bool) : result string :=
  let calculator := init settings None in
  analysis <- calculate_risk float_pow calculator clock
    {| diameter_km := diameter_km;
       miss_distance_km := miss_distance_km;
       velocity_kmh := None;
       approach_date := None;
       is_potentially_hazardous := is_potentially_hazardous;
       is_sentry_object := false;
       absolute_magnitude := None;
       additional_factors := [] |} ;;
  ret (risk_level analysis).

End Utilities.

End RiskCalculator.

(* ================================================================== *)
(** * The impact energy over the real numbers *)

Module ImpactEnergySpec.

Local Open Scope R_scope.

(** The kinetic energy of a uniform sphere in megatons of TNT, as the
    specification words it: half the mass, which is the volume
    [(4/3) pi r^3] of radius [diameter / 2] in metres times the density,
    times the square of the speed in metres per second, over [4.184e15]. *)
Definition impact_energy_megatons (diameter_km velocity_kms density : R) : R :=
  (1 / 2)
  * ((4 / 3) * PI * (diameter_km * 1000 / 2) ^ 3 * density)
  * (velocity_kms * 1000) ^ 2
  / 4.184e15.

End ImpactEnergySpec.

(* ================================================================== *)
(** * Sample environments for the examples *)

Module Samples.

Import Py RiskCalculator.
Local Open Scope string_scope.
Local Open Scope float_scope.

(** A power operator tabulated at the arguments the examples reach, where
    the C library's [pow] is exact or correctly rounded: [10 ** -4.0],
    [500.0 ** 3] and [20000.0 ** 2].  Any other argument is answered as
    [10 ** 400.0] is, by an overflow; the examples reach no other. *)
Definition float_pow (x y : float) : builtin_result float :=
  if (x =? 10) && (y =? -4) then inr 0.0001
  else if (x =? 500) && (y =? 3) then inr 125000000
  else if (x =? 20000) && (y =? 2) then inr 400000000
  else inl (OverflowError "(34, 'Numerical result out of range')").

(** [AsteroidRiskCalculator(RiskThresholds())] *)
Definition calculator : AsteroidRiskCalculator :=
  init Settings.default (Some default_thresholds).

(** [AsteroidRiskCalculator()] with the default settings. *)
Definition calculator_from_settings : AsteroidRiskCalculator :=
  init Settings.default None.

Definition utc (y m d hh mm ss us : Z) : Datetime.datetime :=
  {| Datetime.fields := Datetime.mk_civil y m d hh mm ss us;
     Datetime.tzinfo := Some Datetime.timezone_utc |}.

(** The clock reads 2024-04-13 00:00:00 UTC. *)
Definition clock : Datetime.civil := Datetime.mk_civil 2024 4 13 0 0 0 0.

(** Scenario A with an approach date [d]. *)
Definition apophis (d : option Datetime.datetime) : kwargs :=
  {| diameter_km := Some 0.37;
     miss_distance_km := Some 31000;
     velocity_kmh := Some 23800;
     approach_date := d;
     is_potentially_hazardous := true;
     is_sentry_object := false;
     absolute_magnitude := None;
     additional_factors := [] |}.

(** Scenario B with a diameter [d]. *)
Definition small_distant (d : float) : kwargs :=
  {| diameter_km := Some d;
     miss_distance_km := Some 5000000;
     velocity_kmh := Some 15000;
     approach_date := None;
     is_potentially_hazardous := false;
     is_sentry_object := false;
     absolute_magnitude := None;
     additional_factors := [] |}.

(** Only the given fields are known. *)
Definition sparse (diameter miss_distance magnitude : option float)
    (d : option Datetime.datetime) : kwargs :=
  {| diameter_km := diameter;
     miss_distance_km := miss_distance;
     velocity_kmh := None;
     approach_date := d;
     is_potentially_hazardous := false;
     is_sentry_object := false;
     absolute_magnitude := magnitude;
     additional_factors := [] |}.

(** The same call with other additional keyword arguments. *)
Definition with_additional_factors (a : kwargs)
    (extra : list (string * py_object)) : kwargs :=
  {| diameter_km := diameter_km a;
     miss_distance_km := miss_distance_km a;
     velocity_kmh := velocity_kmh a;
     approach_date := approach_date a;
     is_potentially_hazardous := is_potentially_hazardous a;
     is_sentry_object := is_sentry_object a;
     absolute_magnitude := absolute_magnitude a;
     additional_factors := extra |}.

End Samples.

(* ================================================================== *)
(** * The finite ranges of the factor scorers *)

Module Bands.

Import PyFloat RiskCalculator.
Local Open Scope float_scope.

Definition size_values : list float := [0; 25; 22; 18; 12; 6; 2].
Definition distance_values : list float := [0; 25; 20; 15; 10; 5; 1].
Definition velocity_values : list float := [0; 20; 16; 12; 8; 4; 1].
Definition time_values : list float := [0; 8; 2; 15; 12; 4; 1].
Definition nasa_values : list float := [0; 10; 5; 15].
Definition confidence_values : list float :=
  [py_max 0.1 (1.0 - 0.0);
   py_max 0.1 (1.0 - (0.0 + 0.3));
   py_max 0.1 (1.0 - (0.0 + 0.2));
   py_max 0.1 (1.0 - (0.0 + 0.3 + 0.2))].

(** The clamp at the end of [_apply_modifiers]. *)
Definition clamp (x : float) : float := py_max 0.0 (py_min 100.0 x).

(** The guard of the proximity-size bonus. *)
Definition bonus_guard (diameter_km miss_distance_km : option float) : bool :=
  and_then diameter_km (fun d => 0.5 <? d)
  && and_then miss_distance_km (fun m => m <? 1000000).

(** The penalty [_apply_modifiers] accumulates. *)
Definition penalty (diameter_km miss_distance_km : option float) : float :=
  match diameter_km, miss_distance_km with
  | None, None => 0.0 + 0.3 + 0.2
  | None, Some _ => 0.0 + 0.3
  | Some _, None => 0.0 + 0.2
  | Some _, Some _ => 0.0
  end.

(** The dictionary [calculate_risk] fills, before rounding. *)
Definition scores (s d v t n : float) : dict :=
  [("size"%string, s); ("distance"%string, d); ("velocity"%string, v);
   ("time_to_approach"%string, t); ("nasa_classification"%string, n)].

(** The final score of five factor scores, with or without the bonus. *)
Definition final_of (s d v t n : float) (bonus : bool) : float :=
  let base := sum (dict_values (scores s d v t n)) in
  clamp (if bonus then base + 5.0 else base).

Definition in_range (lo hi x : float) : bool := (lo <=? x) && (x <=? hi).

Definition score_in_range (s d v t n : float) (bonus : bool) : bool :=
  in_range 0 100 (round (final_of s d v t n bonus) 1).

End Bands.

(* ================================================================== *)
(** * The outcomes of a call *)

Module Outcomes.

Import Py RiskCalculator.
Local Open Scope string_scope.

(** The exception [handle_exceptions(reraise_as=RiskCalculationError)]
    raises in [calculate_risk] for the original exception [e]. *)
Definition wrapped (e : builtin_exception) : exception :=
  NEOTracker {| cls := RiskCalculationError;
                message := "Error in calculate_risk";
                details := [("function", "calculate_risk")];
                original_exception := Some e |}.

(** What [batch_risk_calculation] keeps of one call. *)
Definition batch_item (outcome : result RiskAnalysis) : RiskAnalysis :=
  match outcome with
  | inr analysis => analysis
  | inl _ => error_analysis
  end.

End Outcomes.

(* ================================================================== *)
(** * [app.core.exceptions]: the text and the context of an exception *)

Module ExceptionContext.

Import Py.
Local Open Scope string_scope.

(** A [details] dictionary, in insertion order. *)
Definition details_dict : Type := list (string * string).

Fixpoint details_get (d : details_dict) (k : string) : option string :=
  match d with
  | [] => None
  | (k', v) :: rest => if String.eqb k' k then Some v else details_get rest k
  end.

(** [d[k] = v]: the value of a key that is there is replaced in place, a
    new key goes to the end. *)
Fixpoint details_set (d : details_dict) (k v : string) : details_dict :=
  match d with
  | [] => [(k, v)]
  | (k', v') :: rest =>
      if String.eqb k' k then (k', v) :: rest
      else (k', v') :: details_set rest k v
  end.

(** [d.update(other)] *)
Definition details_update (d other : details_dict) : details_dict :=
  fold_left (fun acc kv => details_set acc (fst kv) (snd kv)) other d.

(** [str(e)] of a built-in exception. *)
Definition str_builtin (e : builtin_exception) : string :=
  match e with
  | OverflowError msg => msg
  | TypeError msg => msg
  | ZeroDivisionError msg => msg
  | ValueError msg => msg
  end.

(** The join of the [k=v] items with a comma and a space. *)
Fixpoint join_items (d : details_dict) : string :=
  match d with
  | [] => ""
  | (k, v) :: rest =>
      match rest with
      | [] => k ++ "=" ++ v
      | _ :: _ => (k ++ "=" ++ v) ++ ", " ++ join_items rest
      end
  end.

(** [NEOTrackerException._build_full_message] *)
Definition _build_full_message (e : neo_exception) : string :=
  let msg := message e in
  let msg :=
    match details e with
    | [] => msg
    | _ :: _ =>
        let details_str := join_items (details e) in
        msg ++ " | Details: " ++ details_str
    end in
  let msg :=
    match original_exception e with
    | Some o => msg ++ " | Original: " ++ str_builtin o
    | None => msg
    end in
  msg.

(** The dictionary literal of [error_context]: the operation, then the
    keyword arguments of the context. *)
Definition context_details (operation : string)
    (context_data : details_dict) : details_dict :=
  details_update [] (("operation", operation) :: context_data).

(** [error_context(operation, context_data)] around a block whose outcome
    is [body]: an exception of the tracker's hierarchy has its details
    updated and is raised again, any other exception is raised as a
    [NEOTrackerException] that carries it. *)
Definition error_context {A : Type} (operation : string)
    (context_data : details_dict) (body : result A) : result A :=
  match body with
  | inr v => inr v
  | inl (NEOTracker e) =>
      inl (NEOTracker
             {| cls := cls e;
                message := message e;
                details := details_update (details e)
                             (context_details operation context_data);
                original_exception := original_exception e |})
  | inl (Builtin e) =>
      inl (NEOTracker
             {| cls := NEOTrackerException;
                message := "Error during " ++ operation;
                details := context_details operation context_data;
                original_exception := Some e |})
  end.

End ExceptionContext.

(* ================================================================== *)
(** * The order of the risk levels *)

Module Levels.

Local Open Scope string_scope.

(** The position of a level name in the ladder of
    [_determine_risk_level], from [very_low] up to [critical]. *)
Definition level_rank (level : string) : nat :=
  if String.eqb level "critical" then 5
  else if String.eqb level "very_high" then 4
  else if String.eqb level "high" then 3
  else if String.eqb level "medium" then 2
  else if String.eqb level "low" then 1
  else 0.

Definition level_names : list string :=
  ["very_low"; "low"; "medium"; "high"; "very_high"; "critical"].

Definition priority_names : list string :=
  ["low"; "medium"; "high"; "critical"].

Definition frequency_names : list string :=
  ["yearly"; "monthly"; "weekly"; "daily"].

End Levels.

(* ================================================================== *)
(** * The outcomes the approach date decides *)

Module FailureModes.

Import Py RiskCalculator Outcomes.
Local Open Scope string_scope.

(** What the approach date decides once the size score is there: a naive
    date makes the call raise, any other lets it return. *)
Definition date_outcome
    (float_pow : float -> float -> builtin_result float)
    (self : AsteroidRiskCalculator) (clock : Datetime.civil) (a : kwargs)
  : Prop :=
  match approach_date a with
  | Some dt =>
      match Datetime.tzinfo dt with
      | None =>
          calculate_risk float_pow self clock a
          = inl (wrapped
                   (TypeError
                      "can't compare offset-naive and offset-aware datetimes"))
      | Some _ => exists r, calculate_risk float_pow self clock a = inr r
      end
  | None => exists r, calculate_risk float_pow self clock a = inr r
  end.

End FailureModes.

(* ================================================================== *)
(** * What is known of the power operator *)

Module Libm.

Import Py.
Local Open Scope string_scope.

(** The exception of a power that overflows. *)
Definition overflow_error : builtin_exception :=
  OverflowError "(34, 'Numerical result out of range')".

(** Whether the finite double [y] is exactly [(-1)^s * M * 2^E]. *)
Definition has_value (y : spec_float) (s : bool) (M E : Z) : bool :=
  match y with
  | S754_finite s' m' e' =>
      Bool.eqb s s'
      && (if (e' <=? E)%Z
          then (Zpos m' =? M * 2 ^ (E - e'))%Z
          else (Zpos m' * 2 ^ (e' - E) =? M)%Z)
  | _ => false
  end.

(** What [x ** n] is for a whole exponent [n >= 1], as far as it does not
    depend on the rounding of the C library, whose [pow] is within one
    unit in the last place of the true power: when the true power of a
    finite [x] is a double, that double; when it is [2^1024] or more, the
    overflow, which the interpreter raises as [OverflowError]; nothing is
    said of the other cases ([None]).  The power of [(-1)^s * m * 2^e] is
    [(-1)^(s n) * m^n * 2^(e n)]. *)
Definition known_pow (x : float) (n : positive)
  : option (builtin_result float) :=
  match Prim2SF x with
  | S754_zero s => Some (inr (SF2Prim (S754_zero (s && Z.odd (Zpos n)))))
  | S754_finite s m e =>
      let sign := s && Z.odd (Zpos n) in
      let M := (Zpos m ^ Zpos n)%Z in
      let E := (e * Zpos n)%Z in
      if (1025 <=? Zdigits2 M + E)%Z then Some (inl overflow_error)
      else
        let y := binary_normalize prec emax (if sign then (- M)%Z else M) E
                   false in
        if has_value y sign M E then Some (inr (SF2Prim y)) else None
  | _ => None
  end.

(** A power operator that is right wherever the square and the cube are
    known. *)
Definition power_agrees
    (float_pow : float -> float -> builtin_result float) : Prop :=
  (forall (x : float) (out : builtin_result float),
     known_pow x 2 = Some out -> float_pow x 2%float = out)
  /\ (forall (x : float) (out : builtin_result float),
        known_pow x 3 = Some out -> float_pow x 3%float = out).


End Libm.

(* ================================================================== *)
(** * Facts about the Python floats *)

Module PyFloatFacts.

Import PyFloat.
Local Open Scope float_scope.

Lemma truthy_zero : truthy 0 = false.
Proof. reflexivity. Qed.

Lemma truthy_neg_zero : truthy (-0) = false.
Proof. reflexivity. Qed.

Lemma truthy_nan : truthy nan = true.
Proof. reflexivity. Qed.

(** A float that compares above a non-negative finite float is not a
    zero, hence true. *)
Lemma ltb_pos_truthy (c x : float) :
  SFltb (Prim2SF c) (S754_zero false) = false ->
  SFltb (Prim2SF c) (S754_zero true) = false ->
  (c <? x) = true -> truthy x = true.
Proof.
  intros Hp Hn. unfold truthy.
  rewrite FloatAxioms.ltb_spec, FloatAxioms.eqb_spec.
  change (Prim2SF 0) with (S754_zero false).
  destruct (Prim2SF x) as [[|]|[|]| |[|] m e]; intros H;
    try reflexivity; congruence.
Qed.

Lemma eqb_float_true (x y : float) : eqb_float x y = true -> x = y.
Proof.
  unfold eqb_float. intros H. apply Prim2SF_inj.
  destruct (Prim2SF x) as [s|s| |s m e], (Prim2SF y) as [s'|s'| |s' m' e'];
    try discriminate.
  - apply Bool.eqb_prop in H. congruence.
  - apply Bool.eqb_prop in H. congruence.
  - apply andb_true_iff in H. destruct H as [H He].
    apply andb_true_iff in H. destruct H as [Hs Hm].
    apply Bool.eqb_prop in Hs. apply Pos.eqb_eq in Hm. apply Z.eqb_eq in He.
    congruence.
Qed.


Lemma gt_half_truthy (x : float) : (0.5 <? x) = true -> truthy x = true.
Proof. apply ltb_pos_truthy; reflexivity. Qed.

Example round_examples :
  round 0.125 2 = 0.12 /\ round 2.675 2 = 2.67 /\ round 2.5 0 = 2
  /\ round (1.0 - 0.3) 2 = 0.7 /\ round 56 1 = 56
  /\ round (-0.25) 1 = -0.2 /\ round 1e22 1 = 1e22
  /\ round 1234567.891 2 = 1234567.89 /\ round (-0.04) 1 = -0.
Proof. vm_compute. repeat split. Qed.

Example Z_truediv_examples :
  Z_truediv 2591999999999 1000000 = 2591999.999999
  /\ Z_truediv 1 3 = 1 / 3
  /\ Z_truediv 86400 1 = 86400.
Proof. vm_compute. repeat split. Qed.

End PyFloatFacts.

(* ================================================================== *)
(** * Facts about the risk calculator *)

Module RiskFacts.

Import Py PyFloat RiskCalculator Bands Outcomes.
Local Open Scope string_scope.
Local Open Scope float_scope.

Lemma forallb_In {A : Type} (f : A -> bool) (l : list A) (x : A) :
  forallb f l = true -> In x l -> f x = true.
Proof. intros H. apply (proj1 (forallb_forall f l) H). Qed.

(** Every combination of factor scores, checked by evaluation. *)
Lemma all_scores_in_range :
  forallb (fun s =>
  forallb (fun d =>
  forallb (fun v =>
  forallb (fun t =>
  forallb (fun n =>
  forallb (fun b => score_in_range s d v t n b) [true; false])
    nasa_values) time_values) velocity_values) distance_values) size_values
  = true.
Proof. vm_compute. reflexivity. Qed.

Lemma all_confidences_in_range :
  forallb (fun c => in_range 0.1 1.0 (round c 2)) confidence_values = true.
Proof. vm_compute. reflexivity. Qed.

Lemma score_in_range_of_bands (s d v t n : float) (b : bool) :
  In s size_values -> In d distance_values -> In v velocity_values ->
  In t time_values -> In n nasa_values ->
  score_in_range s d v t n b = true.
Proof.
  intros Hs Hd Hv Ht Hn.
  assert (Hb : In b [true; false]) by (destruct b; simpl; auto).
  pose proof all_scores_in_range as H.
  apply forallb_In with (x := s) in H; [|exact Hs].
  apply forallb_In with (x := d) in H; [|exact Hd].
  apply forallb_In with (x := v) in H; [|exact Hv].
  apply forallb_In with (x := t) in H; [|exact Ht].
  apply forallb_In with (x := n) in H; [|exact Hn].
  apply forallb_In with (x := b) in H; [|exact Hb].
  exact H.
Qed.

Section Scorers.

Variable float_pow : float -> float -> builtin_result float.
Variable self : AsteroidRiskCalculator.

Lemma size_bands_values (d : float) : In (size_bands self d) size_values.
Proof.
  unfold size_bands, size_values.
  repeat match goal with
         | |- context [if ?c then _ else _] => destruct c
         end; simpl; auto 10.
Qed.

Lemma size_score_values (d h : option float) (s : float) :
  _calculate_size_score float_pow self d h = inr s -> In s size_values.
Proof.
  unfold _calculate_size_score, _estimate_diameter_from_magnitude.
  destruct d as [d|].
  - intros [= <-]. apply size_bands_values.
  - destruct h as [h|].
    + destruct (float_pow _ _) as [e|p]; simpl; [discriminate|].
      intros [= <-]. apply size_bands_values.
    + intros [= <-]. simpl. auto.
Qed.

Lemma distance_score_values (m : option float) :
  In (_calculate_distance_score self m) distance_values.
Proof.
  unfold _calculate_distance_score, distance_values.
  destruct m as [m|]; [|simpl; auto].
  repeat match goal with
         | |- context [if ?c then _ else _] => destruct c
         end; simpl; auto 10.
Qed.

Lemma velocity_score_values (v : option float) :
  In (_calculate_velocity_score self v) velocity_values.
Proof.
  unfold _calculate_velocity_score, velocity_values.
  destruct v as [v|]; [|simpl; auto].
  repeat match goal with
         | |- context [if ?c then _ else _] => destruct c
         end; simpl; auto 10.
Qed.

Lemma time_score_values (clock : Datetime.civil)
    (d : option Datetime.datetime) (s : float) (t : option number) :
  _calculate_time_score self clock d = inr (s, t) -> In s time_values.
Proof.
  unfold _calculate_time_score, time_values.
  destruct d as [d|]; [|intros [= <- <-]; simpl; auto].
  destruct (Datetime.lt d _) as [e|[|]]; simpl; try discriminate.
  - destruct (Datetime.sub _ d) as [e|delta]; simpl; try discriminate.
    destruct (_ <=? _)%Z; intros [= <- <-]; simpl; auto.
  - destruct (Datetime.sub d _) as [e|delta]; simpl; try discriminate.
    repeat match goal with
           | |- context [if ?c then _ else _] => destruct c
           end; intros [= <- <-]; simpl; auto 10.
Qed.

Lemma nasa_score_values (pha sentry : bool) :
  In (_calculate_nasa_classification_score pha sentry) nasa_values.
Proof. destruct pha, sentry; vm_compute; auto. Qed.

Lemma apply_modifiers_score (base : float) (fs : dict)
    (d m : option float) :
  fst (_apply_modifiers base fs d m)
  = clamp (if bonus_guard d m then base + 5.0 else base).
Proof.
  unfold _apply_modifiers, bonus_guard.
  destruct (and_then d _ && and_then m _); reflexivity.
Qed.

Lemma apply_modifiers_confidence (base : float) (fs : dict)
    (d m : option float) :
  snd (_apply_modifiers base fs d m) = py_max 0.1 (1.0 - penalty d m).
Proof. destruct d, m; reflexivity. Qed.

(** The fields of an analysis that [calculate_risk_body] returns. *)
Lemma calculate_risk_body_returns (clock : Datetime.civil) (a : kwargs)
    (r : RiskAnalysis) :
  calculate_risk_body float_pow self clock a = inr r ->
  exists (s ts : float) (tta : option number),
    _calculate_size_score float_pow self (diameter_km a) (absolute_magnitude a)
      = inr s
    /\ _calculate_time_score self clock (approach_date a) = inr (ts, tta)
    /\ let fs := scores s (_calculate_distance_score self (miss_distance_km a))
                   (_calculate_velocity_score self (velocity_kmh a)) ts
                   (_calculate_nasa_classification_score
                      (is_potentially_hazardous a) (is_sentry_object a)) in
       let fin := _apply_modifiers (sum (dict_values fs)) fs
                    (diameter_km a) (miss_distance_km a) in
       overall_score r = round (fst fin) 1
       /\ risk_level r = _determine_risk_level (fst fin)
       /\ confidence r = round (snd fin) 2
       /\ factor_scores r = map (fun kv => (fst kv, round (snd kv) 1)) fs
       /\ (primary_concerns r, risk_factors r, mitigating_factors r)
          = _analyze_qualitative_factors fs (diameter_km a)
              (miss_distance_km a) (velocity_kmh a)
              (is_potentially_hazardous a) tta
       /\ time_to_approach_days r = tta
       /\ approach_decade r = _determine_approach_decade (approach_date a)
       /\ (monitoring_priority r, observation_frequency r)
          = _determine_monitoring_recommendations (fst fin)
              (_determine_risk_level (fst fin)) tta.
Proof.
  unfold calculate_risk_body, bind, ret.
  destruct (_calculate_size_score _ _ _ _) as [e|s]; [discriminate|].
  destruct (_calculate_time_score _ _ _) as [e|[ts tta]]; [discriminate|].
  cbv zeta.
  match goal with
  | |- context [dict_set ?d (value NASA_CLASSIFICATION) ?n] =>
      change (dict_set d (value NASA_CLASSIFICATION) n)
        with (scores s (_calculate_distance_score self (miss_distance_km a))
                (_calculate_velocity_score self (velocity_kmh a)) ts n)
  end.
  set (fs := scores _ _ _ _ _).
  destruct (_apply_modifiers _ fs _ _) as [final_score conf] eqn:Hm.
  destruct (_analyze_qualitative_factors _ _ _ _ _ _) as [[c rf] mi] eqn:Hq.
  destruct (_determine_monitoring_recommendations _ _ _) as [mp freq] eqn:Hr.
  intros [= <-]. exists s, ts, tta. fold fs. cbv zeta. rewrite Hm.
  cbn [fst snd overall_score risk_level confidence factor_scores
       primary_concerns risk_factors mitigating_factors time_to_approach_days
       approach_decade monitoring_priority observation_frequency].
  rewrite Hq, Hr. repeat split.
Qed.

(** The decorated function returns exactly what its body returns. *)
Lemma calculate_risk_returns (clock : Datetime.civil) (a : kwargs)
    (r : RiskAnalysis) :
  calculate_risk float_pow self clock a = inr r <->
  calculate_risk_body float_pow self clock a = inr r.
Proof.
  unfold calculate_risk, Exceptions.handle_exceptions.
  destruct (calculate_risk_body _ _ _ _) as [[e|e]|r']; split;
    congruence.
Qed.

Lemma confidence_in_range (d m : option float) :
  in_range 0.1 1.0 (round (py_max 0.1 (1.0 - penalty d m)) 2) = true.
Proof.
  apply (forallb_In _ _ _ all_confidences_in_range).
  unfold confidence_values. destruct d, m; simpl; auto.
Qed.

(** When the two fallible scorers return, so does the body. *)
Lemma calculate_risk_body_total (clock : Datetime.civil) (a : kwargs)
    (s ts : float) (tta : option number) :
  _calculate_size_score float_pow self (diameter_km a) (absolute_magnitude a)
    = inr s ->
  _calculate_time_score self clock (approach_date a) = inr (ts, tta) ->
  exists r, calculate_risk_body float_pow self clock a = inr r.
Proof.
  intros Hs Ht. unfold calculate_risk_body, bind, ret. rewrite Hs, Ht.
  cbv zeta.
  destruct (_apply_modifiers _ _ _ _) as [final_score conf].
  destruct (_analyze_qualitative_factors _ _ _ _ _ _) as [[c rf] mi].
  destruct (_determine_monitoring_recommendations _ _ _) as [mp freq].
  eexists. reflexivity.
Qed.

(** The time scorer returns on every timezone-aware approach date. *)
Lemma time_score_aware (clock c : Datetime.civil) (off : Z) :
  exists (ts : float) (tta : option number),
    _calculate_time_score self clock
      (Some {| Datetime.fields := c; Datetime.tzinfo := Some off |})
    = inr (ts, tta).
Proof.
  unfold _calculate_time_score, Datetime.lt, Datetime.sub, Datetime.now,
    bind, ret.
  cbn [Datetime.tzinfo Datetime.fields].
  destruct (_ <? _)%Z.
  - destruct (_ <=? _)%Z; eauto.
  - repeat match goal with
           | |- context [if ?b then _ else _] => destruct b
           end; eauto.
Qed.

(** C1: whatever the inputs, the thresholds and the clock, an analysis
    returned by [calculate_risk] has its (rounded) [overall_score] between
    0 and 100 and its (rounded) [confidence] between 0.1 and 1.0. *)
Theorem calculate_risk_ranges (clock : Datetime.civil) (a : kwargs)
    (r : RiskAnalysis) :
  calculate_risk float_pow self clock a = inr r ->
  (0 <=? overall_score r) = true /\ (overall_score r <=? 100) = true
  /\ (0.1 <=? confidence r) = true /\ (confidence r <=? 1.0) = true.
Proof.
  intros H. apply calculate_risk_returns in H.
  apply calculate_risk_body_returns in H.
  destruct H as (s & ts & tta & Hs & Ht & Hr). cbv zeta in Hr.
  destruct Hr as (Ho & _ & Hc & _).
  rewrite Ho, Hc, apply_modifiers_score, apply_modifiers_confidence.
  pose proof (score_in_range_of_bands s
    (_calculate_distance_score self (miss_distance_km a))
    (_calculate_velocity_score self (velocity_kmh a)) ts
    (_calculate_nasa_classification_score
       (is_potentially_hazardous a) (is_sentry_object a))
    (bonus_guard (diameter_km a) (miss_distance_km a))
    (size_score_values _ _ _ Hs) (distance_score_values _)
    (velocity_score_values _) (time_score_values _ _ _ _ Ht)
    (nasa_score_values _ _)) as Hrange.
  unfold score_in_range, final_of, in_range in Hrange.
  apply andb_true_iff in Hrange.
  pose proof (confidence_in_range (diameter_km a) (miss_distance_km a)) as Hconf.
  unfold in_range in Hconf. apply andb_true_iff in Hconf.
  tauto.
Qed.

(** Rounding to one decimal leaves every factor score as it is. *)
Lemma round_band_value (x : float) :
  In x (size_values ++ distance_values ++ velocity_values ++ time_values
        ++ nasa_values)%list ->
  round x 1 = x.
Proof.
  intros H. apply PyFloatFacts.eqb_float_true.
  revert H. apply (forallb_In (fun x => eqb_float (round x 1) x)).
  vm_compute. reflexivity.
Qed.

Lemma rounded_scores (s d v t n : float) :
  In s size_values -> In d distance_values -> In v velocity_values ->
  In t time_values -> In n nasa_values ->
  map (fun kv : string * float => (fst kv, round (snd kv) 1))
    (scores s d v t n)
  = scores s d v t n.
Proof.
  intros Hs Hd Hv Ht Hn. unfold scores. cbn [map fst snd].
  rewrite !round_band_value; [reflexivity|..];
    repeat (apply in_or_app; first [left; assumption | right]); assumption.
Qed.

(** C4 (amended): the 0.3 deduction follows the [diameter_km] argument
    alone.  A returned analysis has confidence 0.7 when [diameter_km] is
    absent and the miss distance present (0.5 when both are absent, 0.8
    and 1.0 when the diameter is given), whether or not an absolute
    magnitude is there; before the floor at 0.1 the confidence is 1.0 minus
    0.3 for the absent diameter and minus 0.2 for the absent distance.  The
    magnitude only serves the size score: with both diameter and magnitude
    absent that score is 0, with the magnitude alone it is the band of the
    estimated diameter. *)
Theorem confidence_deduction (clock : Datetime.civil) (a : kwargs)
    (r : RiskAnalysis) :
  calculate_risk float_pow self clock a = inr r ->
  confidence r = match diameter_km a, miss_distance_km a with
                 | None, None => 0.5
                 | None, Some _ => 0.7
                 | Some _, None => 0.8
                 | Some _, Some _ => 1.0
                 end
  /\ (forall (base : float) (fs : dict),
        snd (_apply_modifiers base fs (diameter_km a) (miss_distance_km a))
        = py_max 0.1
            (1.0 - match diameter_km a, miss_distance_km a with
                   | None, None => 0.3 + 0.2
                   | None, Some _ => 0.3
                   | Some _, None => 0.2
                   | Some _, Some _ => 0.0
                   end))
  /\ match diameter_km a, absolute_magnitude a with
     | None, None => dict_get (factor_scores r) "size" 0 = 0
     | None, Some h =>
         exists p, float_pow 10 (-0.2 * h) = inr p
           /\ dict_get (factor_scores r) "size" 0
              = size_bands self ((1329 / math_sqrt 0.25) * p)
     | Some d, _ => dict_get (factor_scores r) "size" 0 = size_bands self d
     end.
Proof.
  intros H. apply calculate_risk_returns in H.
  apply calculate_risk_body_returns in H.
  destruct H as (s & ts & tta & Hs & Ht & Hr). cbv zeta in Hr.
  destruct Hr as (_ & _ & Hc & Hfs & _).
  split; [|split].
  - rewrite Hc, apply_modifiers_confidence.
    destruct (diameter_km a), (miss_distance_km a); vm_compute; reflexivity.
  - intros base fs.
    destruct (diameter_km a), (miss_distance_km a); reflexivity.
  - assert (Hsize : dict_get (factor_scores r) "size" 0 = s).
    { rewrite Hfs. cbn. apply round_band_value.
      apply in_or_app. left. exact (size_score_values _ _ _ Hs). }
    rewrite Hsize. clear Hsize Hfs Hc.
    unfold _calculate_size_score, _estimate_diameter_from_magnitude, bind,
      ret, lift in Hs.
    destruct (diameter_km a) as [d|].
    + injection Hs as <-. reflexivity.
    + destruct (absolute_magnitude a) as [h|].
      * destruct (float_pow 10 (-0.2 * h)) as [e|p]; [discriminate|].
        injection Hs as <-. exists p. split; reflexivity.
      * injection Hs as <-. reflexivity.
Qed.

(** A whole number of days is reported for a past approach only, and it is
    not positive. *)
Lemma time_score_int_nonpositive (clock : Datetime.civil)
    (d : option Datetime.datetime) (ts : float) (z : Z) :
  _calculate_time_score self clock d = inr (ts, Some (NInt z)) ->
  (z <= 0)%Z.
Proof.
  unfold _calculate_time_score, Datetime.lt, Datetime.sub, bind, ret, raise.
  destruct d as [d|]; [|discriminate].
  cbn [Datetime.now Datetime.tzinfo Datetime.fields].
  destruct (Datetime.tzinfo d) as [off|]; [|discriminate].
  generalize (Datetime.to_microseconds (Datetime.fields d) off).
  generalize (Datetime.to_microseconds clock Datetime.timezone_utc).
  intros now_us approach_us.
  destruct (_ <? _)%Z eqn:Hlt.
  - apply Z.ltb_lt in Hlt.
    assert (Hdays : (0 <= Datetime.days
                           (Datetime.timedelta_of_microseconds
                              (now_us - approach_us)))%Z).
    { cbn [Datetime.days Datetime.timedelta_of_microseconds].
      apply Z.div_pos; lia. }
    cbn [Datetime.days Datetime.timedelta_of_microseconds] in Hdays.
    destruct (_ <=? _)%Z; intros [= _ <-]; lia.
  - repeat match goal with
           | |- context [if ?b then _ else _] => destruct b
           end; discriminate.
Qed.




(** C10: two calls that agree on the named parameters and on the clock
    return the same outcome, whatever their additional keyword arguments. *)
Theorem additional_factors_ignored (clock : Datetime.civil) (a b : kwargs) :
  diameter_km a = diameter_km b ->
  miss_distance_km a = miss_distance_km b ->
  velocity_kmh a = velocity_kmh b ->
  approach_date a = approach_date b ->
  is_potentially_hazardous a = is_potentially_hazardous b ->
  is_sentry_object a = is_sentry_object b ->
  absolute_magnitude a = absolute_magnitude b ->
  calculate_risk float_pow self clock a = calculate_risk float_pow self clock b.
Proof.
  destruct a, b. cbn. intros -> -> -> -> -> -> ->. reflexivity.
Qed.

End Scorers.

(** The theorem applied to scenario A, whose analysis is returned. *)
Lemma calculate_risk_ranges_witness :
  exists r,
    calculate_risk Samples.float_pow Samples.calculator Samples.clock
      (Samples.apophis (Some (Samples.utc 2029 4 13 0 0 0 0))) = inr r
    /\ (0 <=? overall_score r) = true /\ (overall_score r <=? 100) = true
    /\ (0.1 <=? confidence r) = true /\ (confidence r <=? 1.0) = true.
Proof.
  eexists. split; [vm_compute; reflexivity|].
  apply (calculate_risk_ranges Samples.float_pow Samples.calculator
           Samples.clock
           (Samples.apophis (Some (Samples.utc 2029 4 13 0 0 0 0)))).
  vm_compute. reflexivity.
Defined.

(** With the diameter absent and the magnitude 20.0, the diameter is
    estimated (0.2658 km, size score 18) and the confidence is still
    reduced to 0.7; given as [diameter_km], the same diameter leaves the
    confidence at 1.0. *)
Lemma estimated_diameter_still_deducts :
  (exists r,
     calculate_risk Samples.float_pow Samples.calculator Samples.clock
       (Samples.sparse None (Some 31000) (Some 20) None) = inr r
     /\ dict_get (factor_scores r) "size" 0 = 18
     /\ confidence r = 0.7
     /\ (confidence r =? 1.0) = false)
  /\ (exists r,
        calculate_risk Samples.float_pow Samples.calculator Samples.clock
          (Samples.sparse (Some 0.2658) (Some 31000) None None) = inr r
        /\ dict_get (factor_scores r) "size" 0 = 18
        /\ confidence r = 1.0).
Proof.
  split; eexists; (split; [vm_compute; reflexivity|]);
    vm_compute; repeat split.
Qed.

Lemma confidence_deduction_witness :
  exists r,
    calculate_risk Samples.float_pow Samples.calculator Samples.clock
      (Samples.sparse None (Some 31000) (Some 20) None) = inr r
    /\ confidence r = 0.7.
Proof.
  eexists. split; [vm_compute; reflexivity|].
  apply (confidence_deduction Samples.float_pow Samples.calculator
           Samples.clock (Samples.sparse None (Some 31000) (Some 20) None)).
  vm_compute. reflexivity.
Defined.


(** The override through [calculate_risk]: an approach in exactly 30 days
    keeps the yearly, low recommendation of a low-risk object; one
    microsecond sooner it becomes daily and medium. *)
Example monitoring_at_thirty_days :
  (exists r,
     calculate_risk Samples.float_pow Samples.calculator Samples.clock
       (Samples.sparse None None None (Some (Samples.utc 2024 5 13 0 0 0 0)))
     = inr r
     /\ time_to_approach_days r = Some (NFloat 30)
     /\ risk_level r = "low"
     /\ monitoring_priority r = "low"
     /\ observation_frequency r = "yearly")
  /\ (exists r,
        calculate_risk Samples.float_pow Samples.calculator Samples.clock
          (Samples.sparse None None None
             (Some (Samples.utc 2024 5 12 23 59 59 999999)))
        = inr r
        /\ risk_level r = "low"
        /\ monitoring_priority r = "medium"
        /\ observation_frequency r = "daily")
  /\ (exists r,
        calculate_risk Samples.float_pow Samples.calculator Samples.clock
          (Samples.sparse None None None
             (Some (Samples.utc 2024 4 13 0 0 0 1)))
        = inr r
        /\ risk_level r = "low"
        /\ monitoring_priority r = "medium"
        /\ observation_frequency r = "daily").
Proof.
  repeat split; eexists; (split; [vm_compute; reflexivity|]);
    vm_compute; repeat split.
Qed.

Lemma additional_factors_ignored_witness :
  calculate_risk Samples.float_pow Samples.calculator Samples.clock
    (Samples.apophis None)
  = calculate_risk Samples.float_pow Samples.calculator Samples.clock
      (Samples.with_additional_factors (Samples.apophis None)
         [("albedo", PyFloatObj 0.3); ("source", PyStr "sentry")]).
Proof.
  apply (additional_factors_ignored Samples.float_pow Samples.calculator
           Samples.clock); reflexivity.
Defined.

(** ** The proximity-size bonus *)

(** The guard of the bonus on two present values: the two comparisons, and
    a miss distance that is not zero. *)
Lemma bonus_guard_present (d m : float) :
  bonus_guard (Some d) (Some m)
  = (0.5 <? d) && ((m <? 1000000) && truthy m).
Proof.
  unfold bonus_guard, and_then.
  destruct (0.5 <? d) eqn:Hd.
  - rewrite (PyFloatFacts.gt_half_truthy d Hd). cbn [andb].
    apply andb_comm.
  - rewrite andb_false_r. reflexivity.
Qed.

(** C5: at diameter 0.6 km and miss distance 0.0 km both comparisons of
    the claim hold, yet the guard is false and the base score goes to the
    clamp without the 5 points: the analysis scores 43, where a miss
    distance of 1 km scores 48.  On present values the bonus is added if
    and only if the diameter is above 0.5, the miss distance is below
    1,000,000 and the miss distance is not zero; at diameter 0.5 there is
    no bonus and at 0.5000001 there is one. *)
Theorem proximity_bonus_misses_zero_distance :
  ((0.5 <? 0.6) = true /\ (0 <? 1000000) = true
   /\ bonus_guard (Some 0.6) (Some 0) = false)
  /\ (forall (base : float) (fs : dict),
        fst (_apply_modifiers base fs (Some 0.6) (Some 0)) = clamp base)
  /\ (exists r,
        calculate_risk Samples.float_pow Samples.calculator Samples.clock
          (Samples.sparse (Some 0.6) (Some 0) None None) = inr r
        /\ factor_scores r = scores 18 25 0 0 0
        /\ overall_score r = 43)
  /\ (exists r,
        calculate_risk Samples.float_pow Samples.calculator Samples.clock
          (Samples.sparse (Some 0.6) (Some 1) None None) = inr r
        /\ factor_scores r = scores 18 25 0 0 0
        /\ overall_score r = 48)
  /\ (forall (base : float) (fs : dict) (d m : float),
        fst (_apply_modifiers base fs (Some d) (Some m))
        = clamp (if (0.5 <? d) && ((m <? 1000000) && truthy m)
                 then base + 5.0 else base))
  /\ (forall m : float, bonus_guard (Some 0.5) (Some m) = false)
  /\ (forall m : float,
        bonus_guard (Some 0.5000001) (Some m) = (m <? 1000000) && truthy m).
Proof.
  split; [repeat split|].
  split; [intros base fs; reflexivity|].
  split; [eexists; split; [vm_compute; reflexivity|];
          vm_compute; repeat split|].
  split; [eexists; split; [vm_compute; reflexivity|];
          vm_compute; repeat split|].
  split; [|split].
  - intros base fs d m.
    rewrite apply_modifiers_score, bonus_guard_present. reflexivity.
  - intros m. rewrite bonus_guard_present. reflexivity.
  - intros m. rewrite bonus_guard_present. reflexivity.
Qed.

(** ** The two scenarios of the specification *)

Section Scenarios.

Variable float_pow : float -> float -> builtin_result float.

(** The analysis of scenario A at the sample clock, five years before the
    approach: the miss distance of 31000 km is below [distance_critical],
    so the distance score is 25 and not 20, and the velocity of 23800 km/h
    is below [velocity_medium], so the velocity score is 4 and not 8. *)
Lemma scenario_A_claimed_scores_fail :
  exists r,
    calculate_risk Samples.float_pow Samples.calculator Samples.clock
      (Samples.apophis (Some (Samples.utc 2029 4 13 0 0 0 0))) = inr r
    /\ dict_get (factor_scores r) "distance" 0 = 25
    /\ (dict_get (factor_scores r) "distance" 0 =? 20) = false
    /\ dict_get (factor_scores r) "velocity" 0 = 4
    /\ (dict_get (factor_scores r) "velocity" 0 =? 8) = false
    /\ dict_get (factor_scores r) "time_to_approach" 0 = 4
    /\ time_to_approach_days r = Some (NFloat 1826)
    /\ overall_score r = 56.
Proof. eexists. split; [vm_compute; reflexivity|]. vm_compute. repeat split. Qed.

(** C2 (amended): with the default [RiskThresholds], diameter 0.37 km, miss
    distance 31000 km, velocity 23800 km/h, the hazardous flag set and any
    timezone-aware approach date (five years ahead or not), [calculate_risk]
    returns an analysis with distance score 25, size score 18, velocity
    score 4, NASA score 5 and risk level high. *)
Theorem scenario_A_scores (clock c : Datetime.civil) (off : Z) :
  exists r,
    calculate_risk float_pow Samples.calculator clock
      (Samples.apophis
         (Some {| Datetime.fields := c; Datetime.tzinfo := Some off |}))
    = inr r
    /\ dict_get (factor_scores r) "distance" 0 = 25
    /\ dict_get (factor_scores r) "size" 0 = 18
    /\ dict_get (factor_scores r) "velocity" 0 = 4
    /\ dict_get (factor_scores r) "nasa_classification" 0 = 5
    /\ risk_level r = "high".
Proof.
  destruct (time_score_aware Samples.calculator clock c off)
    as (ts & tta & Ht).
  set (a := Samples.apophis _).
  assert (Hs : _calculate_size_score float_pow Samples.calculator
                 (diameter_km a) (absolute_magnitude a) = inr 18)
    by reflexivity.
  destruct (calculate_risk_body_total float_pow Samples.calculator clock a
              18 ts tta Hs Ht) as [r Hr].
  exists r. split; [apply calculate_risk_returns; exact Hr|].
  apply calculate_risk_body_returns in Hr.
  destruct Hr as (s' & ts' & tta' & Hs' & Ht' & Hf).
  rewrite Hs in Hs'. injection Hs' as <-.
  change (approach_date a) with
    (Some {| Datetime.fields := c; Datetime.tzinfo := Some off |}) in Ht'.
  rewrite Ht in Ht'. injection Ht' as <- <-.
  cbv zeta in Hf. destruct Hf as (_ & Hl & _ & Hfs & _).
  rewrite Hfs, Hl.
  repeat split; try (vm_compute; reflexivity).
  apply time_score_values in Ht.
  unfold time_values in Ht. simpl in Ht.
  repeat destruct Ht as [<-|Ht]; try (vm_compute; reflexivity).
  contradiction.
Qed.

(** The analysis of scenario B: the miss distance of 5,000,000 km is above
    [distance_high] and below [distance_medium], so the distance score is
    10 and not 5, and the overall score is 20 and not 15. *)
Lemma scenario_B_claimed_scores_fail :
  exists r,
    calculate_risk Samples.float_pow Samples.calculator Samples.clock
      (Samples.small_distant 0.01) = inr r
    /\ dict_get (factor_scores r) "distance" 0 = 10
    /\ (dict_get (factor_scores r) "distance" 0 =? 5) = false
    /\ overall_score r = 20
    /\ (overall_score r =? 15) = false.
Proof. eexists. split; [vm_compute; reflexivity|]. vm_compute. repeat split. Qed.

(** C3 (amended): with the default [RiskThresholds], diameter 0.01 km, miss
    distance 5,000,000 km, velocity 15000 km/h, no approach date and both
    flags false, the size score is 6, the distance score 10, the velocity
    score 4, the time and NASA scores 0, the overall score 20 and the level
    low, with no mitigating entry; and for every diameter in that scenario
    the mitigating factors are the very-small-size entry alone when the
    diameter is non-zero and strictly below 0.01, and empty otherwise. *)
Theorem scenario_B_scores (clock : Datetime.civil) (d : float) :
  (exists r,
     calculate_risk float_pow Samples.calculator clock
       (Samples.small_distant 0.01) = inr r
     /\ factor_scores r = scores 6 10 4 0 0
     /\ overall_score r = 20
     /\ risk_level r = "low"
     /\ mitigating_factors r = [])
  /\ (exists r,
        calculate_risk float_pow Samples.calculator clock
          (Samples.small_distant d) = inr r
        /\ mitigating_factors r
           = if truthy d && (d <? 0.01)
             then ["Tamaño muy pequeño, impacto mínimo"] else []).
Proof.
  split.
  - eexists. split; [vm_compute; reflexivity|]. vm_compute. repeat split.
  - set (a := Samples.small_distant d).
    assert (Hs : _calculate_size_score float_pow Samples.calculator
                   (diameter_km a) (absolute_magnitude a)
                 = inr (size_bands Samples.calculator d)) by reflexivity.
    assert (Ht : _calculate_time_score Samples.calculator clock
                   (approach_date a) = inr (0, None)) by reflexivity.
    destruct (calculate_risk_body_total float_pow Samples.calculator clock a
                _ _ _ Hs Ht) as [r Hr].
    exists r. split; [apply calculate_risk_returns; exact Hr|].
    apply calculate_risk_body_returns in Hr.
    destruct Hr as (s' & ts' & tta' & _ & Ht' & Hf).
    rewrite Ht in Ht'. injection Ht' as <- <-.
    cbv zeta in Hf. destruct Hf as (_ & _ & _ & _ & Hq & _).
    apply (f_equal snd) in Hq. cbn [snd] in Hq. rewrite Hq.
    unfold _analyze_qualitative_factors, a, Samples.small_distant, and_then,
      and_then_number.
    cbn [snd diameter_km miss_distance_km velocity_kmh
         is_potentially_hazardous truthy_number andb].
    change (truthy 5000000 && (10000000 <? 5000000)) with false.
    cbv iota. destruct (truthy d && (d <? 0.01)); reflexivity.
Qed.

(** C9: with the default thresholds, a diameter of 0.0 km gets the size
    score 2 and never the very-small-size entry, and a miss distance of
    0.0 km gets the distance score 25 and neither the extremely-close
    concern nor the bonus: the overall score is the clamped and rounded sum
    of the factor scores.  Zero is nevertheless below each of the three
    bounds. *)
Theorem zero_valued_inputs (clock : Datetime.civil) (a : kwargs)
    (r : RiskAnalysis) :
  calculate_risk float_pow Samples.calculator clock a = inr r ->
  (diameter_km a = Some 0 ->
   dict_get (factor_scores r) "size" 0 = 2
   /\ ~ In "Tamaño muy pequeño, impacto mínimo" (mitigating_factors r))
  /\ (miss_distance_km a = Some 0 ->
      dict_get (factor_scores r) "distance" 0 = 25
      /\ ~ In "Aproximación extremadamente cercana" (primary_concerns r)
      /\ overall_score r
         = round (clamp (sum (dict_values (factor_scores r)))) 1)
  /\ (0 <? 0.01) = true /\ (0 <? 400000) = true /\ (0 <? 1000000) = true.
Proof.
  intros H. apply calculate_risk_returns in H.
  apply calculate_risk_body_returns in H.
  destruct H as (s & ts & tta & Hs & Ht & Hr). cbv zeta in Hr.
  destruct Hr as (Ho & _ & _ & Hfs & Hq & _).
  rewrite rounded_scores in Hfs;
    eauto using size_score_values, distance_score_values,
      velocity_score_values, time_score_values, nasa_score_values.
  split; [|split; [|repeat split]].
  - intros Hd. rewrite Hd in *. injection Hs as <-.
    split; [rewrite Hfs; reflexivity|].
    apply (f_equal snd) in Hq. cbn [snd] in Hq. rewrite Hq.
    unfold _analyze_qualitative_factors. cbv zeta. cbn [snd].
    change (and_then (Some 0) (fun d : float => d <? 0.01)) with false.
    cbv iota.
    destruct (and_then (miss_distance_km a) _);
      destruct (and_then_number tta _);
      cbn; intuition discriminate.
  - intros Hm. rewrite Hm in *.
    split; [rewrite Hfs; reflexivity|].
    split.
    + apply (f_equal (fun x => fst (fst x))) in Hq. cbn [fst] in Hq.
      rewrite Hq.
      unfold _analyze_qualitative_factors. cbv zeta. cbn [fst].
      change (and_then (Some 0) (fun m : float => m <? 400000)) with false.
      cbv iota.
      destruct (and_then (diameter_km a) _);
        destruct (and_then (velocity_kmh a) _);
        destruct (and_then_number tta _);
        cbn; intuition discriminate.
    + rewrite Ho, Hfs, apply_modifiers_score. unfold bonus_guard.
      change (and_then (Some 0) (fun m : float => m <? 1000000)) with false.
      rewrite andb_false_r. reflexivity.
Qed.

End Scenarios.

Lemma zero_valued_inputs_witness :
  exists r,
    calculate_risk Samples.float_pow Samples.calculator Samples.clock
      (Samples.sparse (Some 0) (Some 0) None None) = inr r
    /\ dict_get (factor_scores r) "size" 0 = 2
    /\ dict_get (factor_scores r) "distance" 0 = 25
    /\ overall_score r = 27.
Proof.
  eexists. split; [vm_compute; reflexivity|].
  pose proof (zero_valued_inputs Samples.float_pow Samples.clock
                (Samples.sparse (Some 0) (Some 0) None None) _ eq_refl)
    as (Hd & Hm & _).
  destruct (Hd eq_refl) as (Hsize & _).
  destruct (Hm eq_refl) as (Hdist & _ & Hscore).
  split; [exact Hsize|]. split; [exact Hdist|]. exact Hscore.
Defined.

(** ** Failures *)

Lemma nth_error_combine_seq {A : Type} (l : list A) :
  forall (k i : nat) (x : A),
    nth_error l i = Some x ->
    nth_error (combine (seq k (List.length l)) l) i = Some ((k + i)%nat, x).
Proof.
  induction l as [|y rest IH]; intros k i x Hi.
  - destruct i; discriminate.
  - destruct i as [|i]; cbn in *.
    + injection Hi as <-. rewrite Nat.add_0_r. reflexivity.
    + rewrite (IH (S k) i x Hi). f_equal. f_equal. lia.
Qed.

Section Failures.

Variable float_pow : float -> float -> builtin_result float.

(** Every exception of the body is a built-in one. *)
Lemma calculate_risk_body_raises (self : AsteroidRiskCalculator)
    (clock : Datetime.civil) (a : kwargs) (x : exception) :
  calculate_risk_body float_pow self clock a = inl x ->
  exists e, x = Builtin e.
Proof.
  unfold calculate_risk_body, bind, ret.
  destruct (_calculate_size_score _ _ _ _) as [x1|s] eqn:Hs.
  - intros [= <-]. revert Hs.
    unfold _calculate_size_score, _estimate_diameter_from_magnitude, bind,
      ret, lift.
    destruct (diameter_km a); [discriminate|].
    destruct (absolute_magnitude a); [|discriminate].
    destruct (float_pow _ _) as [e|p]; [|discriminate].
    intros [= <-]. eauto.
  - destruct (_calculate_time_score _ _ _) as [x2|[ts tta]] eqn:Ht.
    + intros [= <-]. revert Ht.
      unfold _calculate_time_score, Datetime.lt, Datetime.sub, bind, ret,
        raise.
      destruct (approach_date a) as [d|]; [|discriminate].
      cbn [Datetime.now Datetime.tzinfo Datetime.fields].
      destruct (Datetime.tzinfo d) as [off|].
      * destruct (_ <? _)%Z.
        -- destruct (_ <=? _)%Z; discriminate.
        -- repeat match goal with
                  | |- context [if ?b then _ else _] => destruct b
                  end; discriminate.
      * intros [= <-]. eauto.
    + cbv zeta.
      destruct (_apply_modifiers _ _ _ _) as [final_score conf].
      destruct (_analyze_qualitative_factors _ _ _ _ _ _) as [[c rf] mi].
      destruct (_determine_monitoring_recommendations _ _ _) as [mp freq].
      discriminate.
Qed.

(** The outcomes of the decorated function. *)
Lemma calculate_risk_outcome (self : AsteroidRiskCalculator)
    (clock : Datetime.civil) (a : kwargs) :
  match calculate_risk_body float_pow self clock a with
  | inr r => calculate_risk float_pow self clock a = inr r
  | inl (Builtin e) => calculate_risk float_pow self clock a = inl (wrapped e)
  | inl (NEOTracker _) => False
  end.
Proof.
  unfold calculate_risk, Exceptions.handle_exceptions.
  destruct (calculate_risk_body _ _ _ _) as [[e|e]|r] eqn:H;
    try reflexivity.
  apply calculate_risk_body_raises in H. destruct H as [e' H]. discriminate.
Qed.

(** The loop never leaves early: it appends one item per call. *)
Lemma batch_loop_returns (calculator : AsteroidRiskCalculator)
    (clock : nat -> Datetime.civil) (asteroids_data : list kwargs) :
  forall (i : nat) (results : list RiskAnalysis),
    batch_loop float_pow calculator clock i asteroids_data results
    = inr (results
           ++ map (fun ia =>
                     batch_item (calculate_risk float_pow calculator
                                   (clock (fst ia)) (snd ia)))
                (combine (seq i (List.length asteroids_data)) asteroids_data))%list.
Proof.
  induction asteroids_data as [|a rest IH]; intros i results.
  - cbn. rewrite app_nil_r. reflexivity.
  - cbn [batch_loop List.length seq combine map fst snd].
    pose proof (calculate_risk_outcome calculator (clock i) a) as Ho.
    destruct (calculate_risk_body float_pow calculator (clock i) a)
      as [[e|e]|r]; [| contradiction |]; rewrite Ho.
    + cbn [wrapped cls is_RiskCalculationError batch_item].
      rewrite IH. unfold append. rewrite <- app_assoc. reflexivity.
    + cbn [batch_item]. rewrite IH. unfold append.
      rewrite <- app_assoc. reflexivity.
Qed.

(** C7: when a step of [calculate_risk] raises, the call raises a single
    [RiskCalculationError] that carries the original exception, and
    otherwise it returns the analysis of its body; and
    [batch_risk_calculation] always returns one entry per object, in
    order: the analysis of the object, or, when its calculation raised, the
    placeholder with score 0, level unknown, confidence 0 and one concern
    that tells of the error. *)
Theorem failures_are_wrapped_and_batch_goes_on
    (self : AsteroidRiskCalculator) (settings : Settings.Settings)
    (clock : Datetime.civil) (clocks : nat -> Datetime.civil) (a : kwargs)
    (asteroids_data : list kwargs) :
  match calculate_risk_body float_pow self clock a with
  | inr r => calculate_risk float_pow self clock a = inr r
  | inl (Builtin e) =>
      calculate_risk float_pow self clock a
      = inl (NEOTracker {| cls := RiskCalculationError;
                           message := "Error in calculate_risk";
                           details := [("function", "calculate_risk")];
                           original_exception := Some e |})
  | inl (NEOTracker _) => False
  end
  /\ (exists results,
        batch_risk_calculation float_pow settings clocks asteroids_data
        = inr results
        /\ List.length results = List.length asteroids_data
        /\ forall (i : nat) (item : kwargs),
             nth_error asteroids_data i = Some item ->
             nth_error results i
             = Some (match calculate_risk float_pow (init settings None)
                             (clocks i) item with
                     | inr analysis => analysis
                     | inl _ => error_analysis
                     end))
  /\ overall_score error_analysis = 0
  /\ risk_level error_analysis = "unknown"
  /\ confidence error_analysis = 0
  /\ primary_concerns error_analysis = ["Error en cálculo de riesgo"].
Proof.
  split; [exact (calculate_risk_outcome self clock a)|].
  split; [|repeat split].
  unfold batch_risk_calculation. rewrite batch_loop_returns.
  eexists. split; [reflexivity|]. cbn [app].
  split.
  - rewrite length_map, length_combine, length_seq. apply Nat.min_id.
  - intros i item Hi.
    rewrite nth_error_map.
    rewrite (nth_error_combine_seq asteroids_data 0 i item Hi).
    reflexivity.
Qed.

End Failures.

(** A batch of four objects: the second has a naive approach date and the
    third an absolute magnitude whose power overflows; the first and the
    fourth are scored as if alone. *)
Example batch_with_two_failures :
  batch_risk_calculation Samples.float_pow Settings.default
    (fun _ => Samples.clock)
    [Samples.small_distant 0.01;
     Samples.sparse None None None
       (Some {| Datetime.fields := Datetime.mk_civil 2029 4 13 0 0 0 0;
                Datetime.tzinfo := None |});
     Samples.sparse None None (Some (-2000)) None;
     Samples.sparse (Some 0.6) (Some 1) None None]
  = inr [batch_item (calculate_risk Samples.float_pow
                       Samples.calculator_from_settings Samples.clock
                       (Samples.small_distant 0.01));
         error_analysis;
         error_analysis;
         batch_item (calculate_risk Samples.float_pow
                       Samples.calculator_from_settings Samples.clock
                       (Samples.sparse (Some 0.6) (Some 1) None None))]
  /\ calculate_risk Samples.float_pow Samples.calculator Samples.clock
       (Samples.sparse None None (Some (-2000)) None)
     = inl (wrapped
              (OverflowError "(34, 'Numerical result out of range')"))
  /\ calculate_risk Samples.float_pow Samples.calculator Samples.clock
       (Samples.sparse None None None
          (Some {| Datetime.fields := Datetime.mk_civil 2029 4 13 0 0 0 0;
                   Datetime.tzinfo := None |}))
     = inl (wrapped
              (TypeError
                 "can't compare offset-naive and offset-aware datetimes")).
Proof. vm_compute. repeat split. Qed.

End RiskFacts.

(* ================================================================== *)
(** * Facts about the impact energy *)

Module ImpactEnergyFacts.

Import Py PyFloat RiskCalculator.


(** The formula is the kinetic energy of the sphere of mass
    [pi / 6 * d^3 * density]. *)
Lemma impact_energy_megatons_sphere (d v rho : R) :
  (ImpactEnergySpec.impact_energy_megatons d v rho
   = (PI / 6 * (d * 1000) ^ 3 * rho) * (v * 1000) ^ 2 / 2 / 4.184e15)%R.
Proof. unfold ImpactEnergySpec.impact_energy_megatons. field. lra. Qed.



(** ** The power operator *)


(** An operator that returns its base is not a power. *)
Lemma base_is_not_a_power :
  ~ Libm.power_agrees (fun x _ => inr x).
Proof.
  intros [H2 _]. specialize (H2 3%float (inr 9%float) eq_refl).
  apply (f_equal (fun o => match o with
                           | inr y => (y =? 3)%float
                           | inl _ => false
                           end)) in H2.
  vm_compute in H2. discriminate.
Qed.

Example known_pow_examples :
  Libm.known_pow 500 3 = Some (inr 125000000%float)
  /\ Libm.known_pow 20000 2 = Some (inr 400000000%float)
  /\ Libm.known_pow 1.5 2 = Some (inr 2.25%float)
  /\ Libm.known_pow (-2) 3 = Some (inr (-8)%float)
  /\ Libm.known_pow 0.1 2 = None
  /\ Libm.known_pow 5e202 3 = Some (inl Libm.overflow_error)
  /\ Libm.known_pow 1e154 2 = None
  /\ Libm.known_pow 1e155 2 = Some (inl Libm.overflow_error).
Proof. vm_compute. repeat split. Qed.

Section OnDoubles.

Local Open Scope float_scope.

Variable float_pow : float -> float -> builtin_result float.




End OnDoubles.



End ImpactEnergyFacts.

(* ================================================================== *)
(** * The order of the doubles *)

Module FloatOrder.

Local Open Scope float_scope.

Ltac sf_compare :=
  repeat match goal with
         | H : context [Pos.compare_cont Eq ?a ?b] |- _ =>
             change (Pos.compare_cont Eq a b) with (Pos.compare a b) in H
         | |- context [Pos.compare_cont Eq ?a ?b] =>
             change (Pos.compare_cont Eq a b) with (Pos.compare a b)
         end;
  repeat match goal with
         | H : context [Z.compare ?a ?b] |- _ =>
             destruct (Z.compare_spec a b); cbn in H
         | |- context [Z.compare ?a ?b] =>
             destruct (Z.compare_spec a b); cbn
         | H : context [Pos.compare ?a ?b] |- _ =>
             destruct (Pos.compare_spec a b); cbn in H
         | |- context [Pos.compare ?a ?b] =>
             destruct (Pos.compare_spec a b); cbn
         end;
  subst; try reflexivity; try discriminate; try lia.

Ltac sf_cases3 a b c :=
  destruct a as [[|]|[|]| |[|] ? ?], b as [[|]|[|]| |[|] ? ?],
    c as [[|]|[|]| |[|] ? ?]; cbn; intros;
  try reflexivity; try discriminate; sf_compare.

Lemma SFleb_trans (a b c : spec_float) :
  SFleb a b = true -> SFleb b c = true -> SFleb a c = true.
Proof. unfold SFleb, SFcompare. sf_cases3 a b c. Qed.

Lemma SFltb_trans (a b c : spec_float) :
  SFltb a b = true -> SFltb b c = true -> SFltb a c = true.
Proof. unfold SFltb, SFcompare. sf_cases3 a b c. Qed.

Lemma SFltb_leb_trans (a b c : spec_float) :
  SFltb a b = true -> SFleb b c = true -> SFltb a c = true.
Proof. unfold SFleb, SFltb, SFcompare. sf_cases3 a b c. Qed.

Lemma SFleb_ltb_trans (a b c : spec_float) :
  SFleb a b = true -> SFltb b c = true -> SFltb a c = true.
Proof. unfold SFleb, SFltb, SFcompare. sf_cases3 a b c. Qed.

Lemma leb_trans (a b c : float) :
  (a <=? b) = true -> (b <=? c) = true -> (a <=? c) = true.
Proof. rewrite !FloatAxioms.leb_spec. apply SFleb_trans. Qed.

Lemma ltb_trans (a b c : float) :
  (a <? b) = true -> (b <? c) = true -> (a <? c) = true.
Proof. rewrite !FloatAxioms.ltb_spec. apply SFltb_trans. Qed.

Lemma ltb_leb_trans (a b c : float) :
  (a <? b) = true -> (b <=? c) = true -> (a <? c) = true.
Proof.
  rewrite !FloatAxioms.ltb_spec, FloatAxioms.leb_spec.
  apply SFltb_leb_trans.
Qed.

Lemma leb_ltb_trans (a b c : float) :
  (a <=? b) = true -> (b <? c) = true -> (a <? c) = true.
Proof.
  rewrite !FloatAxioms.ltb_spec, FloatAxioms.leb_spec.
  apply SFleb_ltb_trans.
Qed.

End FloatOrder.

(* ================================================================== *)
(** * Further facts about the risk calculator *)

Module ScoringFacts.

Import Py PyFloat RiskCalculator Bands Outcomes Levels FailureModes.
Import RiskFacts.
Local Open Scope string_scope.
Local Open Scope float_scope.

(** Every combination of factor scores: rounding leaves the final score as
    it is, and the clamp only acts as the cap at 100 after a bonus. *)
Lemma all_scores_compose :
  forallb (fun s =>
  forallb (fun d =>
  forallb (fun v =>
  forallb (fun t =>
  forallb (fun n =>
  forallb (fun b : bool =>
    let base := sum (dict_values (scores s d v t n)) in
    eqb_float (round (final_of s d v t n b) 1) (final_of s d v t n b)
    && eqb_float (final_of s d v t n b)
         (if b then py_min 100 (base + 5) else base))
    [true; false])
    nasa_values) time_values) velocity_values) distance_values) size_values
  = true.
Proof. vm_compute. reflexivity. Qed.

Lemma scores_compose (s d v t n : float) (b : bool) :
  In s size_values -> In d distance_values -> In v velocity_values ->
  In t time_values -> In n nasa_values ->
  round (final_of s d v t n b) 1 = final_of s d v t n b
  /\ final_of s d v t n b
     = (if b then py_min 100 (sum (dict_values (scores s d v t n)) + 5)
        else sum (dict_values (scores s d v t n))).
Proof.
  intros Hs Hd Hv Ht Hn.
  assert (Hb : In b [true; false]) by (destruct b; simpl; auto).
  pose proof all_scores_compose as H.
  apply forallb_In with (x := s) in H; [|exact Hs].
  apply forallb_In with (x := d) in H; [|exact Hd].
  apply forallb_In with (x := v) in H; [|exact Hv].
  apply forallb_In with (x := t) in H; [|exact Ht].
  apply forallb_In with (x := n) in H; [|exact Hn].
  apply forallb_In with (x := b) in H; [|exact Hb].
  cbv zeta in H. apply andb_true_iff in H. destruct H as [H1 H2].
  split; apply PyFloatFacts.eqb_float_true; assumption.
Qed.

Lemma bands_in_range :
  forallb (in_range 0 25) size_values = true
  /\ forallb (in_range 0 25) distance_values = true
  /\ forallb (in_range 0 20) velocity_values = true
  /\ forallb (in_range 0 15) time_values = true
  /\ forallb (in_range 0 15) nasa_values = true.
Proof. vm_compute. repeat split. Qed.

Section Analysis.

Variable float_pow : float -> float -> builtin_result float.
Variable self : AsteroidRiskCalculator.

(** What a returned analysis is made of, with the factor scores in the
    ranges of the scorers. *)
Lemma analysis_of_bands (clock : Datetime.civil) (a : kwargs)
    (r : RiskAnalysis) :
  calculate_risk float_pow self clock a = inr r ->
  exists (s d v t n : float) (tta : option number),
    In s size_values /\ In d distance_values /\ In v velocity_values
    /\ In t time_values /\ In n nasa_values
    /\ _calculate_time_score self clock (approach_date a) = inr (t, tta)
    /\ factor_scores r = scores s d v t n
    /\ overall_score r
       = final_of s d v t n
           (bonus_guard (diameter_km a) (miss_distance_km a))
    /\ risk_level r = _determine_risk_level (overall_score r)
    /\ time_to_approach_days r = tta
    /\ (primary_concerns r, risk_factors r, mitigating_factors r)
       = _analyze_qualitative_factors (scores s d v t n) (diameter_km a)
           (miss_distance_km a) (velocity_kmh a)
           (is_potentially_hazardous a) tta
    /\ (monitoring_priority r, observation_frequency r)
       = _determine_monitoring_recommendations (overall_score r)
           (risk_level r) tta.
Proof.
  intros H. apply calculate_risk_returns in H.
  apply calculate_risk_body_returns in H.
  destruct H as (s & ts & tta & Hs & Ht & Hr). cbv zeta in Hr.
  destruct Hr as (Ho & Hl & _ & Hfs & Hq & Htta & _ & Hm).
  pose proof (size_score_values _ _ _ _ _ Hs) as Is.
  pose proof (distance_score_values self (miss_distance_km a)) as Id.
  pose proof (velocity_score_values self (velocity_kmh a)) as Iv.
  pose proof (time_score_values _ _ _ _ _ Ht) as It.
  pose proof (nasa_score_values (is_potentially_hazardous a)
                (is_sentry_object a)) as In_.
  rewrite rounded_scores in Hfs by assumption.
  rewrite apply_modifiers_score in Ho, Hl, Hm.
  fold (final_of s (_calculate_distance_score self (miss_distance_km a))
          (_calculate_velocity_score self (velocity_kmh a)) ts
          (_calculate_nasa_classification_score
             (is_potentially_hazardous a) (is_sentry_object a))
          (bonus_guard (diameter_km a) (miss_distance_km a))) in Ho, Hl, Hm.
  destruct (scores_compose s _ _ ts _
              (bonus_guard (diameter_km a) (miss_distance_km a))
              Is Id Iv It In_) as [Hround _].
  rewrite Hround in Ho. rewrite <- Ho in Hl, Hm. rewrite <- Hl in Hm.
  exists s, (_calculate_distance_score self (miss_distance_km a)),
    (_calculate_velocity_score self (velocity_kmh a)), ts,
    (_calculate_nasa_classification_score
       (is_potentially_hazardous a) (is_sentry_object a)), tta.
  repeat (split; [assumption|]). exact Hm.
Qed.

(** X1: a returned analysis has exactly the five factor scores, in the
    order size, distance, velocity, time to approach, NASA classification,
    and whatever the thresholds each lies in the range its scorer
    documents: 0 to 25, 0 to 25, 0 to 20, 0 to 15 and 0 to 15. *)
Theorem factor_scores_in_ranges (clock : Datetime.civil) (a : kwargs)
    (r : RiskAnalysis) :
  calculate_risk float_pow self clock a = inr r ->
  exists s d v t n : float,
    factor_scores r
    = [("size", s); ("distance", d); ("velocity", v);
       ("time_to_approach", t); ("nasa_classification", n)]
    /\ in_range 0 25 s = true /\ in_range 0 25 d = true
    /\ in_range 0 20 v = true /\ in_range 0 15 t = true
    /\ in_range 0 15 n = true.
Proof.
  intros H. apply analysis_of_bands in H.
  destruct H as (s & d & v & t & n & tta & Is & Id & Iv & It & In_ & _
                 & Hfs & _).
  destruct bands_in_range as (Bs & Bd & Bv & Bt & Bn).
  exists s, d, v, t, n. split; [exact Hfs|].
  split; [exact (forallb_In _ _ s Bs Is)|].
  split; [exact (forallb_In _ _ d Bd Id)|].
  split; [exact (forallb_In _ _ v Bv Iv)|].
  split; [exact (forallb_In _ _ t Bt It)|].
  exact (forallb_In _ _ n Bn In_).
Qed.

(** X2: the overall score of a returned analysis is the sum of its factor
    scores, plus 5 and capped at 100 when the proximity-size bonus applies
    (the clamp and the rounding change nothing else), and the risk level
    is the level of that reported score. *)
Theorem overall_score_is_sum (clock : Datetime.civil) (a : kwargs)
    (r : RiskAnalysis) :
  calculate_risk float_pow self clock a = inr r ->
  overall_score r
  = (if bonus_guard (diameter_km a) (miss_distance_km a)
     then py_min 100 (sum (dict_values (factor_scores r)) + 5)
     else sum (dict_values (factor_scores r)))
  /\ risk_level r = _determine_risk_level (overall_score r).
Proof.
  intros H. apply analysis_of_bands in H.
  destruct H as (s & d & v & t & n & tta & Is & Id & Iv & It & In_ & _
                 & Hfs & Ho & Hl & _).
  split; [|exact Hl].
  rewrite Ho, Hfs.
  exact (proj2 (scores_compose s d v t n _ Is Id Iv It In_)).
Qed.

End Analysis.

(** The level of a score is one of the six names. *)
Lemma risk_level_names (score : float) :
  In (_determine_risk_level score) level_names.
Proof.
  unfold _determine_risk_level, level_names.
  repeat match goal with
         | |- context [if ?c then _ else _] => destruct c
         end; simpl; auto 10.
Qed.

(** The recommendation of every level, with and without the override. *)
Lemma monitoring_table (score : float) (level : string)
    (tta : option number) (p f : string) :
  In level level_names ->
  _determine_monitoring_recommendations score level tta = (p, f) ->
  In p priority_names /\ In f frequency_names
  /\ (level = "critical" \/ level = "very_high" ->
      p = "critical" /\ f = "daily")
  /\ (p = "low" -> f = "yearly")
  /\ (f = "daily" -> p <> "low")
  /\ (level_rank level <= 1 -> p = "low" \/ p = "medium")%nat.
Proof.
  unfold level_names, _determine_monitoring_recommendations.
  intros Hl.
  repeat destruct Hl as [<-|Hl]; try contradiction;
    cbn [String.eqb Ascii.eqb Bool.eqb orb];
    destruct (and_then_number tta _); intros [= <- <-];
    cbn; repeat split;
    first [ tauto
          | match goal with
            | H : _ \/ _ |- _ => destruct H; discriminate
            end
          | intros [?|?]; discriminate
          | intros; discriminate
          | intros; lia
          | intros; auto ].
Qed.

Section Monitoring.

Variable float_pow : float -> float -> builtin_result float.
Variable self : AsteroidRiskCalculator.

(** X3: in a returned analysis the risk level, the monitoring priority and
    the observation frequency are among their fixed names; a critical or
    very high level always comes with critical priority and daily
    observation, a low priority always with yearly observation, and daily
    observation never with a low priority. *)
Theorem monitoring_is_consistent (clock : Datetime.civil) (a : kwargs)
    (r : RiskAnalysis) :
  calculate_risk float_pow self clock a = inr r ->
  In (risk_level r) level_names
  /\ In (monitoring_priority r) priority_names
  /\ In (observation_frequency r) frequency_names
  /\ (risk_level r = "critical" \/ risk_level r = "very_high" ->
      monitoring_priority r = "critical"
      /\ observation_frequency r = "daily")
  /\ (monitoring_priority r = "low" -> observation_frequency r = "yearly")
  /\ (observation_frequency r = "daily" -> monitoring_priority r <> "low").
Proof.
  intros H. apply analysis_of_bands in H.
  destruct H as (s & d & v & t & n & tta & _ & _ & _ & _ & _ & _
                 & _ & _ & Hl & _ & _ & Hm).
  assert (Hnames : In (risk_level r) level_names)
    by (rewrite Hl; apply risk_level_names).
  split; [exact Hnames|].
  destruct (monitoring_table _ _ _ _ _ Hnames (eq_sym Hm))
    as (Hp & Hf & Hc & Hlow & Hd & _).
  repeat split; auto; apply Hc; assumption.
Qed.

End Monitoring.

Lemma monitoring_is_consistent_witness :
  exists r,
    calculate_risk Samples.float_pow Samples.calculator Samples.clock
      (Samples.small_distant 0.01) = inr r
    /\ monitoring_priority r = "low"
    /\ observation_frequency r = "yearly".
Proof.
  eexists. split; [vm_compute; reflexivity|].
  split; [vm_compute; reflexivity|].
  apply (monitoring_is_consistent Samples.float_pow Samples.calculator
           Samples.clock (Samples.small_distant 0.01));
    vm_compute; reflexivity.
Defined.

Lemma factor_scores_in_ranges_witness :
  exists s d v t n : float,
    (s, d, v, t, n) = (18, 25, 4, 4, 5)
    /\ in_range 0 25 s = true /\ in_range 0 25 d = true
    /\ in_range 0 20 v = true /\ in_range 0 15 t = true
    /\ in_range 0 15 n = true.
Proof.
  destruct (factor_scores_in_ranges Samples.float_pow Samples.calculator
              Samples.clock
              (Samples.apophis (Some (Samples.utc 2029 4 13 0 0 0 0)))
              _ eq_refl)
    as (s & d & v & t & n & Hfs & Hr).
  vm_compute in Hfs. injection Hfs as <- <- <- <- <-.
  exists 18, 25, 4, 4, 5. split; [reflexivity|exact Hr].
Defined.

Lemma overall_score_is_sum_witness :
  exists r,
    calculate_risk Samples.float_pow Samples.calculator Samples.clock
      (Samples.sparse (Some 0.6) (Some 1) None None) = inr r
    /\ overall_score r = 48
    /\ risk_level r = "medium".
Proof.
  eexists. split; [vm_compute; reflexivity|].
  destruct (overall_score_is_sum Samples.float_pow Samples.calculator
              Samples.clock (Samples.sparse (Some 0.6) (Some 1) None None)
              _ eq_refl) as (Ho & Hl).
  split; [exact Ho|exact Hl].
Defined.

(** ** The narrative lists *)

(** Each entry of the primary concerns is there only if its trigger
    holds. *)
Lemma concerns_triggers (fs : dict) (d m v : option float) (pha : bool)
    (tta : option number) :
  let concerns :=
    fst (fst (_analyze_qualitative_factors fs d m v pha tta)) in
  (In "Asteroide de gran tamaño con potencial devastador" concerns ->
   and_then d (fun d => 1.0 <? d) = true)
  /\ (In "Aproximación extremadamente cercana" concerns ->
      and_then m (fun m => m <? 400000) = true)
  /\ (In "Velocidad de impacto muy alta" concerns ->
      and_then v (fun v => 100000 <? v) = true)
  /\ (In "Aproximación inminente" concerns ->
      and_then_number tta (fun t => number_gt t 0 && number_lt t 365)
      = true).
Proof.
  unfold _analyze_qualitative_factors. cbv zeta. cbn [fst].
  destruct (and_then d _), (and_then m _), (and_then v _),
    (and_then_number tta _); cbn;
    repeat split; intros H; try reflexivity;
    repeat destruct H as [H|H]; try discriminate; contradiction.
Qed.

(** Each mitigating factor is there only if its trigger holds. *)
Lemma mitigating_triggers (fs : dict) (d m v : option float) (pha : bool)
    (tta : option number) :
  let mitigating := snd (_analyze_qualitative_factors fs d m v pha tta) in
  (In "Distancia de paso segura" mitigating ->
   and_then m (fun m => 10000000 <? m) = true)
  /\ (In "Tamaño muy pequeño, impacto mínimo" mitigating ->
      and_then d (fun d => d <? 0.01) = true)
  /\ (In "Aproximación en futuro distante" mitigating ->
      and_then_number tta (fun t => number_gt t 3650) = true).
Proof.
  unfold _analyze_qualitative_factors. cbv zeta. cbn [snd].
  destruct (and_then m _), (and_then d _), (and_then_number tta _); cbn;
    repeat split; intros H; try reflexivity;
    repeat destruct H as [H|H]; try discriminate; contradiction.
Qed.

(** Two strict bounds that cross cannot both hold of one value. *)
Lemma and_then_between (x : option float) (lo hi : float) :
  (lo <? hi) = false ->
  and_then x (fun v => v <? hi) = true ->
  and_then x (fun v => lo <? v) = true ->
  False.
Proof.
  intros Hc. destruct x as [v|]; [|discriminate]. unfold and_then.
  intros H1 H2. apply andb_true_iff in H1, H2.
  destruct H1 as [_ H1]. destruct H2 as [_ H2].
  rewrite (FloatOrder.ltb_trans lo v hi H2 H1) in Hc. discriminate.
Qed.

Section Narrative.

Variable float_pow : float -> float -> builtin_result float.
Variable self : AsteroidRiskCalculator.

(** X4: the lists of a returned analysis never contradict themselves: the
    extremely-close concern and the safe-distance mitigation never come
    together, nor the large-size concern with the very-small-size
    mitigation, nor the imminent-approach concern with the distant-future
    mitigation. *)
Theorem narrative_is_not_contradictory (clock : Datetime.civil)
    (a : kwargs) (r : RiskAnalysis) :
  calculate_risk float_pow self clock a = inr r ->
  ~ (In "Aproximación extremadamente cercana" (primary_concerns r)
     /\ In "Distancia de paso segura" (mitigating_factors r))
  /\ ~ (In "Asteroide de gran tamaño con potencial devastador"
          (primary_concerns r)
        /\ In "Tamaño muy pequeño, impacto mínimo" (mitigating_factors r))
  /\ ~ (In "Aproximación inminente" (primary_concerns r)
        /\ In "Aproximación en futuro distante" (mitigating_factors r)).
Proof.
  intros H. apply analysis_of_bands in H.
  destruct H as (s & d & v & t & n & tta & _ & _ & _ & _ & _ & _
                 & _ & _ & _ & _ & Hq & _).
  pose proof (concerns_triggers (scores s d v t n) (diameter_km a)
                (miss_distance_km a) (velocity_kmh a)
                (is_potentially_hazardous a) tta) as Hc.
  pose proof (mitigating_triggers (scores s d v t n) (diameter_km a)
                (miss_distance_km a) (velocity_kmh a)
                (is_potentially_hazardous a) tta) as Hm.
  rewrite <- Hq in Hc, Hm. cbn [fst snd] in Hc, Hm.
  destruct Hc as (Hlarge & Hclose & _ & Himminent).
  destruct Hm as (Hsafe & Hsmall & Hdistant).
  split; [|split]; intros [H1 H2].
  - apply (and_then_between (miss_distance_km a) 10000000 400000);
      [reflexivity|auto|auto].
  - apply (and_then_between (diameter_km a) 1.0 0.01);
      [reflexivity|auto|auto].
  - specialize (Himminent H1). specialize (Hdistant H2).
    unfold and_then_number in Himminent, Hdistant.
    apply andb_true_iff in Himminent, Hdistant.
    destruct Himminent as [_ Hi]. destruct Hdistant as [_ Hd].
    destruct tta as [[z|f]|]; [| |discriminate].
    + apply andb_true_iff in Hi. destruct Hi as [_ Hi].
      cbn in Hi, Hd. apply Z.ltb_lt in Hi, Hd. lia.
    + apply andb_true_iff in Hi. destruct Hi as [_ Hi].
      cbn [number_gt number_lt] in Hi, Hd.
      pose proof (FloatOrder.ltb_trans _ _ _ Hd Hi) as Hcross.
      vm_compute in Hcross. discriminate.
Qed.

End Narrative.

Lemma narrative_is_not_contradictory_witness :
  exists r,
    calculate_risk Samples.float_pow Samples.calculator Samples.clock
      (Samples.apophis (Some (Samples.utc 2029 4 13 0 0 0 0))) = inr r
    /\ In "Aproximación extremadamente cercana" (primary_concerns r)
    /\ ~ In "Distancia de paso segura" (mitigating_factors r).
Proof.
  eexists. split; [vm_compute; reflexivity|].
  split; [vm_compute; auto|].
  intros Hsafe.
  apply (narrative_is_not_contradictory Samples.float_pow
           Samples.calculator Samples.clock
           (Samples.apophis (Some (Samples.utc 2029 4 13 0 0 0 0)))
           _ eq_refl).
  split; [vm_compute; auto|exact Hsafe].
Defined.

(** ** Monotonicity *)

Ltac split_ladder :=
  repeat match goal with
         | |- context [if ?c then _ else _] =>
             let H := fresh "Hc" in destruct c eqn:H
         end.

Ltac close_ladder x1 x2 :=
  first
    [ reflexivity
    | cbn; lia
    | match goal with
      | H1 : (?c <=? x1) = true, H2 : (?c <=? x2) = false |- _ =>
          rewrite (FloatOrder.leb_trans c x1 x2 H1) in H2 by assumption;
          discriminate
      | H1 : (x2 <=? ?c) = true, H2 : (x1 <=? ?c) = false |- _ =>
          rewrite (FloatOrder.leb_trans x1 x2 c) in H2 by assumption;
          discriminate
      end ].

(** The level never goes down when the score goes up. *)
Lemma determine_risk_level_monotone (s1 s2 : float) :
  (s1 <=? s2) = true ->
  (level_rank (_determine_risk_level s1)
   <= level_rank (_determine_risk_level s2))%nat.
Proof.
  intros Hle. unfold _determine_risk_level.
  split_ladder; close_ladder s1 s2.
Qed.

Section Monotone.

Variable float_pow : float -> float -> builtin_result float.
Variable self : AsteroidRiskCalculator.

(** X5: of two returned analyses, computed with any inputs, thresholds and
    clocks, the one with the higher overall score never has the lower risk
    level. *)
Theorem risk_level_is_monotone (self' : AsteroidRiskCalculator)
    (clock clock' : Datetime.civil) (a a' : kwargs) (r r' : RiskAnalysis) :
  calculate_risk float_pow self clock a = inr r ->
  calculate_risk float_pow self' clock' a' = inr r' ->
  (overall_score r <=? overall_score r') = true ->
  (level_rank (risk_level r) <= level_rank (risk_level r'))%nat.
Proof.
  intros H H' Hle.
  apply analysis_of_bands in H.
  destruct H as (s & d & v & t & n & tta & _ & _ & _ & _ & _ & _
                 & _ & _ & Hl & _).
  apply analysis_of_bands in H'.
  destruct H' as (s' & d' & v' & t' & n' & tta' & _ & _ & _ & _ & _ & _
                  & _ & _ & Hl' & _).
  rewrite Hl, Hl'. apply determine_risk_level_monotone. exact Hle.
Qed.

(** X6: whatever the thresholds, a larger diameter never gets a lower size
    score, a higher velocity never a lower velocity score, and a larger
    miss distance never a higher distance score. *)
Theorem scorers_are_monotone (d1 d2 m1 m2 v1 v2 : float)
    (h1 h2 : option float) :
  (d1 <=? d2) = true -> (m1 <=? m2) = true -> (v1 <=? v2) = true ->
  (exists s1 s2 : float,
     _calculate_size_score float_pow self (Some d1) h1 = inr s1
     /\ _calculate_size_score float_pow self (Some d2) h2 = inr s2
     /\ (s1 <=? s2) = true)
  /\ (_calculate_velocity_score self (Some v1)
      <=? _calculate_velocity_score self (Some v2)) = true
  /\ (_calculate_distance_score self (Some m2)
      <=? _calculate_distance_score self (Some m1)) = true.
Proof.
  intros Hd Hm Hv. split; [|split].
  - exists (size_bands self d1), (size_bands self d2).
    split; [reflexivity|]. split; [reflexivity|].
    unfold size_bands. split_ladder; close_ladder d1 d2.
  - unfold _calculate_velocity_score. split_ladder; close_ladder v1 v2.
  - unfold _calculate_distance_score. split_ladder; close_ladder m1 m2.
Qed.

End Monotone.

Lemma risk_level_is_monotone_witness :
  (level_rank "low" <= level_rank "high")%nat.
Proof.
  apply (risk_level_is_monotone Samples.float_pow Samples.calculator
           Samples.calculator Samples.clock Samples.clock
           (Samples.small_distant 0.01)
           (Samples.apophis (Some (Samples.utc 2029 4 13 0 0 0 0)))
           {| overall_score := 20;
              risk_level := "low";
              confidence := 1;
              factor_scores := scores 6 10 4 0 0;
              primary_concerns := [];
              risk_factors := [];
              mitigating_factors := [];
              time_to_approach_days := None;
              approach_decade := None;
              monitoring_priority := "low";
              observation_frequency := "yearly" |}
           {| overall_score := 56;
              risk_level := "high";
              confidence := 1;
              factor_scores := scores 18 25 4 4 5;
              primary_concerns := ["Aproximación extremadamente cercana"];
              risk_factors :=
                ["Clasificado como Potencialmente Peligroso por NASA";
                 "Tamaño significativo"; "Proximidad notable a la Tierra"];
              mitigating_factors := [];
              time_to_approach_days := Some (NFloat 1826);
              approach_decade := Some "2020s";
              monitoring_priority := "high";
              observation_frequency := "weekly" |});
    vm_compute; reflexivity.
Defined.

Lemma scorers_are_monotone_witness :
  (_calculate_velocity_score Samples.calculator (Some 15000)
   <=? _calculate_velocity_score Samples.calculator (Some 120000)) = true
  /\ (_calculate_distance_score Samples.calculator (Some 5000000)
      <=? _calculate_distance_score Samples.calculator (Some 31000)) = true.
Proof.
  apply (scorers_are_monotone Samples.float_pow Samples.calculator
           0.01 0.37 31000 5000000 15000 120000 None None);
    reflexivity.
Defined.

(** ** The thresholds of the settings *)

(** X7: a calculator built without thresholds, under the default settings,
    never gives the velocity score 8: the velocity threshold of the
    settings, 25000 km/h, takes the place of [velocity_high] and equals
    [velocity_medium], so the band of 12 starts where the band of 8
    would. *)
Theorem default_settings_hide_the_medium_velocity_band (v : option float) :
  In (_calculate_velocity_score (init Settings.default None) v)
    [0; 20; 16; 12; 4; 1]
  /\ velocity_high (thresholds (init Settings.default None))
     = velocity_medium (thresholds (init Settings.default None)).
Proof.
  split; [|reflexivity].
  unfold _calculate_velocity_score. destruct v as [v|]; [|simpl; auto].
  change (velocity_critical (thresholds (init Settings.default None)))
    with 200000.
  change (velocity_very_high (thresholds (init Settings.default None)))
    with 100000.
  change (velocity_high (thresholds (init Settings.default None)))
    with 25000.
  change (velocity_medium (thresholds (init Settings.default None)))
    with 25000.
  destruct (200000 <=? v); [simpl; auto|].
  destruct (100000 <=? v); [simpl; auto|].
  destruct (25000 <=? v); [simpl; auto 10|].
  destruct (_ <=? v); simpl; auto 10.
Qed.

(** Every score made of a size score, a distance score and the hazardous
    flag alone has a level up to high. *)
Lemma all_quick_levels :
  forallb (fun s =>
  forallb (fun d =>
  forallb (fun n =>
  forallb (fun b : bool =>
    existsb (String.eqb (_determine_risk_level (final_of s d 0 0 n b)))
      ["very_low"; "low"; "medium"; "high"])
    [true; false]) [0; 5]) distance_values) size_values
  = true.
Proof. vm_compute. reflexivity. Qed.

Lemma quick_levels (s d n : float) (b : bool) :
  In s size_values -> In d distance_values -> In n [0; 5] ->
  In (_determine_risk_level
        (clamp (if b then sum (dict_values (scores s d 0 0 n)) + 5.0
                else sum (dict_values (scores s d 0 0 n)))))
    ["very_low"; "low"; "medium"; "high"].
Proof.
  intros Hs Hd Hn.
  assert (Hb : In b [true; false]) by (destruct b; simpl; auto).
  pose proof all_quick_levels as H.
  apply forallb_In with (x := s) in H; [|exact Hs].
  apply forallb_In with (x := d) in H; [|exact Hd].
  apply forallb_In with (x := n) in H; [|exact Hn].
  apply forallb_In with (x := b) in H; [|exact Hb].
  apply existsb_exists in H. destruct H as (x & Hx & He).
  apply String.eqb_eq in He. unfold final_of in He. cbv zeta in He.
  rewrite He. exact Hx.
Qed.

(** ** When the calculation fails *)

Section FailureConditions.

Variable float_pow : float -> float -> builtin_result float.
Variable self : AsteroidRiskCalculator.

Lemma date_outcome_of_size (clock : Datetime.civil) (a : kwargs)
    (s : float) :
  _calculate_size_score float_pow self (diameter_km a) (absolute_magnitude a)
    = inr s ->
  date_outcome float_pow self clock a.
Proof.
  intros Hs. unfold date_outcome.
  destruct (approach_date a) as [dt|] eqn:Hd.
  - destruct dt as [c [off|]]; cbn [Datetime.tzinfo].
    + destruct (time_score_aware self clock c off) as (ts & tta & Ht).
      rewrite <- Hd in Ht.
      destruct (calculate_risk_body_total float_pow self clock a s ts tta
                  Hs Ht) as [r Hr].
      exists r. apply calculate_risk_returns. exact Hr.
    + unfold calculate_risk, Exceptions.handle_exceptions,
        calculate_risk_body, bind.
      rewrite Hs, Hd. reflexivity.
  - assert (Ht : _calculate_time_score self clock (approach_date a)
                 = inr (0, None)) by (rewrite Hd; reflexivity).
    destruct (calculate_risk_body_total float_pow self clock a s 0 None
                Hs Ht) as [r Hr].
    exists r. apply calculate_risk_returns. exact Hr.
Qed.

(** X8: [calculate_risk] fails in exactly two ways.  When the diameter is
    absent, a magnitude is given and the power of the estimate raises, the
    call raises the [RiskCalculationError] that carries that exception;
    otherwise, when the approach date is naive, it raises the one that
    carries the [TypeError] of the comparison with the clock; in every
    other case it returns an analysis. *)
Theorem calculate_risk_failure_conditions (clock : Datetime.civil)
    (a : kwargs) :
  match diameter_km a, absolute_magnitude a with
  | None, Some h =>
      match float_pow 10 (-0.2 * h) with
      | inl e => calculate_risk float_pow self clock a = inl (wrapped e)
      | inr _ => date_outcome float_pow self clock a
      end
  | _, _ => date_outcome float_pow self clock a
  end.
Proof.
  destruct (diameter_km a) as [d|] eqn:Hd.
  - apply (date_outcome_of_size clock a (size_bands self d)).
    rewrite Hd. reflexivity.
  - destruct (absolute_magnitude a) as [h|] eqn:Hh.
    + destruct (float_pow 10 (-0.2 * h)) as [e|p] eqn:Hp.
      * unfold calculate_risk, Exceptions.handle_exceptions,
          calculate_risk_body, _calculate_size_score,
          _estimate_diameter_from_magnitude, bind, lift.
        rewrite Hd, Hh, Hp. reflexivity.
      * apply (date_outcome_of_size clock a
                 (size_bands self ((1329 / math_sqrt 0.25) * p))).
        unfold _calculate_size_score, _estimate_diameter_from_magnitude,
          bind, lift, ret.
        rewrite Hd, Hh, Hp. reflexivity.
    + apply (date_outcome_of_size clock a 0).
      rewrite Hd, Hh. reflexivity.
Qed.

(** X9: an approach that is already past is reported as a whole number of
    days, zero or negative; its time score is 8 up to 30 days back and 2
    beyond; it never raises the imminent-approach concern nor the
    distant-future mitigation, and the monitoring recommendation is the
    one of the risk level alone. *)
Theorem past_approach (clock : Datetime.civil) (a : kwargs)
    (dt : Datetime.datetime) (r : RiskAnalysis) :
  approach_date a = Some dt ->
  Datetime.lt dt (Datetime.now clock Datetime.timezone_utc) = inr true ->
  calculate_risk float_pow self clock a = inr r ->
  exists z : Z,
    time_to_approach_days r = Some (NInt z)
    /\ (z <= 0)%Z
    /\ dict_get (factor_scores r) "time_to_approach" 0
       = (if (-30 <=? z)%Z then 8 else 2)
    /\ ~ In "Aproximación inminente" (primary_concerns r)
    /\ ~ In "Aproximación en futuro distante" (mitigating_factors r)
    /\ (monitoring_priority r, observation_frequency r)
       = _determine_monitoring_recommendations (overall_score r)
           (risk_level r) None.
Proof.
  intros Hd Hlt H. apply analysis_of_bands in H.
  destruct H as (s & d & v & t & n & tta & _ & _ & _ & _ & _ & Ht
                 & Hfs & _ & _ & Htta & Hq & Hm).
  rewrite Hd in Ht.
  assert (Hz : exists z : Z,
             tta = Some (NInt z) /\ (z <= 0)%Z
             /\ t = (if (-30 <=? z)%Z then 8 else 2)).
  { pose proof Ht as Ht'.
    unfold _calculate_time_score, bind, ret in Ht'. rewrite Hlt in Ht'.
    destruct (Datetime.sub _ dt) as [e|delta]; [discriminate|].
    destruct (Datetime.days delta <=? 30)%Z eqn:Hdays;
      injection Ht' as <- <-;
      (eexists; split; [reflexivity|]);
      (split; [exact (time_score_int_nonpositive self clock _ _ _ Ht)|]).
    - apply Z.leb_le in Hdays.
      destruct (-30 <=? - Datetime.days delta)%Z eqn:Hc; [reflexivity|].
      apply Z.leb_gt in Hc. lia.
    - apply Z.leb_gt in Hdays.
      destruct (-30 <=? - Datetime.days delta)%Z eqn:Hc; [|reflexivity].
      apply Z.leb_le in Hc. lia. }
  destruct Hz as (z & -> & Hle & ->).
  exists z. split; [exact Htta|]. split; [exact Hle|].
  split; [rewrite Hfs; reflexivity|].
  assert (Hpos : (0 <? z)%Z = false) by (apply Z.ltb_ge; exact Hle).
  assert (Hfar : (3650 <? z)%Z = false) by (apply Z.ltb_ge; lia).
  pose proof (concerns_triggers (scores s d v
                (if (-30 <=? z)%Z then 8 else 2) n) (diameter_km a)
                (miss_distance_km a) (velocity_kmh a)
                (is_potentially_hazardous a) (Some (NInt z))) as Hc.
  pose proof (mitigating_triggers (scores s d v
                (if (-30 <=? z)%Z then 8 else 2) n) (diameter_km a)
                (miss_distance_km a) (velocity_kmh a)
                (is_potentially_hazardous a) (Some (NInt z))) as Hmi.
  rewrite <- Hq in Hc, Hmi. cbn [fst snd] in Hc, Hmi.
  destruct Hc as (_ & _ & _ & Himminent).
  destruct Hmi as (_ & _ & Hdistant).
  split; [|split].
  - intros Hin. specialize (Himminent Hin).
    unfold and_then_number in Himminent. cbn [number_gt] in Himminent.
    rewrite Hpos in Himminent. cbn [andb] in Himminent.
    rewrite andb_false_r in Himminent. discriminate.
  - intros Hin. specialize (Hdistant Hin).
    unfold and_then_number in Hdistant. cbn [number_gt] in Hdistant.
    rewrite Hfar, andb_false_r in Hdistant. discriminate.
  - rewrite Hm. unfold _determine_monitoring_recommendations,
      and_then_number.
    cbn [number_gt]. rewrite Hpos. cbn [andb]. rewrite andb_false_r.
    reflexivity.
Qed.

(** X10: [quick_risk_assessment] never raises, and the level it returns is
    never above high: without velocity, date and Sentry flag the score is
    at most 25 + 25 + 5, plus the bonus. *)
Theorem quick_risk_assessment_levels (settings : Settings.Settings)
    (clock : Datetime.civil) (diameter_km miss_distance_km : option float)
    (is_potentially_hazardous : bool) :
  exists level : string,
    quick_risk_assessment float_pow settings clock diameter_km
      miss_distance_km is_potentially_hazardous = inr level
    /\ In level ["very_low"; "low"; "medium"; "high"].
Proof.
  unfold quick_risk_assessment. cbv zeta.
  set (a := {| RiskCalculator.diameter_km := diameter_km;
               RiskCalculator.miss_distance_km := miss_distance_km;
               velocity_kmh := None;
               approach_date := None;
               RiskCalculator.is_potentially_hazardous :=
                 is_potentially_hazardous;
               is_sentry_object := false;
               absolute_magnitude := None;
               additional_factors := [] |}).
  set (calc := init settings None).
  assert (Hs : exists s,
             _calculate_size_score float_pow calc
               (RiskCalculator.diameter_km a) (absolute_magnitude a)
             = inr s).
  { destruct diameter_km; cbn; eauto. }
  destruct Hs as [s Hs].
  assert (Ht : _calculate_time_score calc clock (approach_date a)
               = inr (0, None)) by reflexivity.
  destruct (calculate_risk_body_total float_pow calc clock a s 0 None
              Hs Ht) as [r Hr].
  pose proof (proj2 (calculate_risk_returns float_pow calc clock a r) Hr)
    as Hcall.
  unfold bind, ret. rewrite Hcall. exists (risk_level r).
  split; [reflexivity|].
  apply calculate_risk_body_returns in Hr.
  destruct Hr as (s' & ts & tta & Hs' & Ht' & Hf).
  rewrite Ht in Ht'. injection Ht' as <- <-.
  cbv zeta in Hf. destruct Hf as (_ & Hl & _).
  rewrite Hl, apply_modifiers_score.
  pose proof (size_score_values _ _ _ _ _ Hs') as Is.
  pose proof (distance_score_values calc (RiskCalculator.miss_distance_km a))
    as Id.
  assert (In_ : In (_calculate_nasa_classification_score
                      (RiskCalculator.is_potentially_hazardous a)
                      (is_sentry_object a)) [0; 5])
    by (destruct is_potentially_hazardous; vm_compute; auto).
  change (_calculate_velocity_score calc (velocity_kmh a)) with 0.
  apply quick_levels; assumption.
Qed.

(** X11: the diameter estimated from the magnitude serves the size score
    and nothing else.  When [diameter_km] is absent, whatever the
    magnitude and however large the estimate, the analysis lists neither
    the large-size concern nor the very-small-size mitigation, and it gets
    no proximity-size bonus: its overall score is the sum of its factor
    scores. *)
Theorem absent_diameter_is_not_narrated (clock : Datetime.civil)
    (a : kwargs) (r : RiskAnalysis) :
  diameter_km a = None ->
  calculate_risk float_pow self clock a = inr r ->
  ~ In "Asteroide de gran tamaño con potencial devastador"
      (primary_concerns r)
  /\ ~ In "Tamaño muy pequeño, impacto mínimo" (mitigating_factors r)
  /\ overall_score r = sum (dict_values (factor_scores r)).
Proof.
  intros Hd H. pose proof H as H'. apply analysis_of_bands in H.
  destruct H as (s & d & v & t & n & tta & Is & Id & Iv & It & In_ & _
                 & Hfs & Ho & _ & _ & Hq & _).
  pose proof (concerns_triggers (scores s d v t n) (diameter_km a)
                (miss_distance_km a) (velocity_kmh a)
                (is_potentially_hazardous a) tta) as Hc.
  pose proof (mitigating_triggers (scores s d v t n) (diameter_km a)
                (miss_distance_km a) (velocity_kmh a)
                (is_potentially_hazardous a) tta) as Hm.
  rewrite <- Hq in Hc, Hm. cbn [fst snd] in Hc, Hm.
  destruct Hc as (Hlarge & _). destruct Hm as (_ & Hsmall & _).
  rewrite Hd in Hlarge, Hsmall, Ho.
  split; [intros Hin; specialize (Hlarge Hin); discriminate|].
  split; [intros Hin; specialize (Hsmall Hin); discriminate|].
  rewrite Ho, Hfs.
  exact (proj2 (scores_compose s d v t n false Is Id Iv It In_)).
Qed.

End FailureConditions.

Lemma absent_diameter_is_not_narrated_witness :
  exists r,
    calculate_risk Samples.float_pow Samples.calculator Samples.clock
      (Samples.sparse None (Some 31000) (Some 20) None) = inr r
    /\ overall_score r = 43.
Proof.
  eexists. split; [vm_compute; reflexivity|].
  apply (absent_diameter_is_not_narrated Samples.float_pow
           Samples.calculator Samples.clock
           (Samples.sparse None (Some 31000) (Some 20) None));
    vm_compute; reflexivity.
Defined.

Lemma past_approach_witness :
  exists r,
    calculate_risk Samples.float_pow Samples.calculator Samples.clock
      (Samples.sparse None None None
         (Some (Samples.utc 2024 3 1 12 0 0 0))) = inr r
    /\ time_to_approach_days r = Some (NInt (-42))
    /\ dict_get (factor_scores r) "time_to_approach" 0 = 2.
Proof.
  eexists. split; [vm_compute; reflexivity|].
  destruct (past_approach Samples.float_pow Samples.calculator
              Samples.clock
              (Samples.sparse None None None
                 (Some (Samples.utc 2024 3 1 12 0 0 0)))
              (Samples.utc 2024 3 1 12 0 0 0) _ eq_refl eq_refl eq_refl)
    as (z & Hz & _ & Hs & _).
  vm_compute in Hz. injection Hz as <-.
  split; [reflexivity|exact Hs].
Defined.

(** ** Batches *)

Lemma map_combine_seq_app {A B : Type} (F : nat * A -> B) (l1 l2 : list A) :
  forall k : nat,
    map F (combine (seq k (List.length (l1 ++ l2)%list)) (l1 ++ l2)%list)
    = (map F (combine (seq k (List.length l1)) l1)
       ++ map F (combine (seq (k + List.length l1) (List.length l2)) l2))%list.
Proof.
  induction l1 as [|x l1 IH]; intros k.
  - cbn. rewrite Nat.add_0_r. reflexivity.
  - cbn [List.length app seq combine map]. rewrite IH.
    replace (S k + List.length l1)%nat with (k + S (List.length l1))%nat
      by lia.
    reflexivity.
Qed.

Lemma map_combine_seq_shift {A B : Type} (G : nat -> A -> B) (l : list A)
    (n : nat) :
  forall k : nat,
    map (fun ia => G (fst ia) (snd ia))
      (combine (seq (n + k) (List.length l)) l)
    = map (fun ia => G (n + fst ia)%nat (snd ia))
        (combine (seq k (List.length l)) l).
Proof.
  induction l as [|x l IH]; intros k; [reflexivity|].
  cbn [List.length seq combine map fst snd].
  replace (S (n + k)) with (n + S k)%nat by lia.
  rewrite IH. reflexivity.
Qed.

Section Batches.

Variable float_pow : float -> float -> builtin_result float.
Variable settings : Settings.Settings.

(** X12: a batch over two lists one after the other is the batch of the
    first followed by the batch of the second (read at the later clock
    readings), and the batch of the empty list is empty: no object's entry
    depends on the objects around it. *)
Theorem batch_of_concatenation (clocks : nat -> Datetime.civil)
    (first second : list kwargs) :
  exists r1 r2 : list RiskAnalysis,
    batch_risk_calculation float_pow settings clocks first = inr r1
    /\ batch_risk_calculation float_pow settings
         (fun i => clocks (List.length first + i)%nat) second = inr r2
    /\ batch_risk_calculation float_pow settings clocks
         (first ++ second)%list = inr (r1 ++ r2)%list
    /\ batch_risk_calculation float_pow settings clocks [] = inr [].
Proof.
  unfold batch_risk_calculation. cbv zeta.
  rewrite !batch_loop_returns. cbn [app].
  eexists. eexists. split; [reflexivity|]. split; [reflexivity|].
  split; [|reflexivity].
  f_equal.
  rewrite (map_combine_seq_app
             (fun ia => batch_item
                          (calculate_risk float_pow (init settings None)
                             (clocks (fst ia)) (snd ia)))
             first second 0).
  apply f_equal. cbn [Nat.add].
  replace (List.length first) with (List.length first + 0)%nat at 1 by lia.
  exact (map_combine_seq_shift
           (fun i a => batch_item
                         (calculate_risk float_pow (init settings None)
                            (clocks i) a))
           second (List.length first) 0).
Qed.

End Batches.

End ScoringFacts.

(* ================================================================== *)
(** * Facts about the exceptions *)

Module ExceptionFacts.

Import Py Exceptions ExceptionContext.
Local Open Scope string_scope.

(** ** Strings *)

Lemma append_assoc (a b c : string) : (a ++ b) ++ c = a ++ (b ++ c).
Proof. induction a as [|x a IH]; cbn; [reflexivity|]. rewrite IH. reflexivity. Qed.

Lemma prefix_append (a b : string) : String.prefix a (a ++ b) = true.
Proof.
  induction a as [|x a IH]; cbn; [destruct b; reflexivity|].
  destruct (Ascii.ascii_dec x x) as [_|Hne]; [exact IH|contradiction].
Qed.

(** ** Detail dictionaries *)

Lemma get_set_same (d : details_dict) (k v : string) :
  details_get (details_set d k v) k = Some v.
Proof.
  induction d as [|[k' v'] d IH]; cbn.
  - rewrite String.eqb_refl. reflexivity.
  - destruct (String.eqb k' k) eqn:E; cbn; rewrite E; [reflexivity|exact IH].
Qed.

Lemma get_set_other (d : details_dict) (k k' v : string) :
  k <> k' -> details_get (details_set d k v) k' = details_get d k'.
Proof.
  intros Hne. induction d as [|[k0 v0] d IH]; cbn.
  - destruct (String.eqb k k') eqn:E; [|reflexivity].
    apply String.eqb_eq in E. contradiction.
  - destruct (String.eqb k0 k) eqn:E; cbn.
    + apply String.eqb_eq in E. subst k0.
      destruct (String.eqb k k') eqn:E'; [|reflexivity].
      apply String.eqb_eq in E'. contradiction.
    + destruct (String.eqb k0 k'); [reflexivity|exact IH].
Qed.

Lemma get_update_notin (other : details_dict) :
  forall (d : details_dict) (k : string),
    ~ In k (map fst other) ->
    details_get (details_update d other) k = details_get d k.
Proof.
  unfold details_update.
  induction other as [|[k0 v0] other IH]; intros d k Hn; [reflexivity|].
  cbn [fold_left fst snd]. rewrite IH.
  - apply get_set_other. intros E. apply Hn. left. exact E.
  - intros Hin. apply Hn. right. exact Hin.
Qed.

Lemma get_update_in (other : details_dict) :
  forall (d : details_dict) (k v : string),
    NoDup (map fst other) -> In (k, v) other ->
    details_get (details_update d other) k = Some v.
Proof.
  induction other as [|[k0 v0] other IH]; intros d k v Hnd Hin;
    [contradiction|].
  cbn [map fst] in Hnd. inversion Hnd as [|? ? Hnotin Hnd']; subst.
  destruct Hin as [E|Hin].
  - injection E as -> ->.
    change (details_update d ((k, v) :: other))
      with (details_update (details_set d k v) other).
    rewrite get_update_notin by exact Hnotin. apply get_set_same.
  - change (details_update d ((k0, v0) :: other))
      with (details_update (details_set d k0 v0) other).
    apply IH; assumption.
Qed.

Lemma set_absent (d : details_dict) (k v : string) :
  ~ In k (map fst d) -> details_set d k v = (d ++ [(k, v)])%list.
Proof.
  induction d as [|[k0 v0] d IH]; intros Hn; [reflexivity|].
  cbn. destruct (String.eqb k0 k) eqn:E.
  - apply String.eqb_eq in E. exfalso. apply Hn. left. exact E.
  - rewrite IH; [reflexivity|]. intros Hin. apply Hn. right. exact Hin.
Qed.

Lemma update_unique (other : details_dict) :
  forall d : details_dict,
    NoDup (map fst (d ++ other)%list) ->
    details_update d other = (d ++ other)%list.
Proof.
  induction other as [|[k v] other IH]; intros d Hnd.
  - cbn. rewrite app_nil_r. reflexivity.
  - change (details_update d ((k, v) :: other))
      with (details_update (details_set d k v) other).
    assert (Hn : ~ In k (map fst d)).
    { rewrite map_app in Hnd. cbn in Hnd.
      apply NoDup_remove_2 in Hnd. intros Hin. apply Hnd.
      apply in_or_app. left. exact Hin. }
    rewrite (set_absent d k v Hn).
    rewrite IH; rewrite <- app_assoc; [reflexivity|exact Hnd].
Qed.

(** The dictionary literal of the context, when the keywords are distinct
    and none is called operation. *)
Lemma context_details_literal (operation : string) (ctx : details_dict) :
  NoDup (map fst ctx) -> ~ In "operation" (map fst ctx) ->
  context_details operation ctx = ("operation", operation) :: ctx.
Proof.
  intros Hnd Hn. unfold context_details.
  apply (update_unique (("operation", operation) :: ctx) []).
  cbn. constructor; assumption.
Qed.

(** ** The decorator *)

(** X13: a function decorated with [handle_exceptions] returns what the
    function returns, lets an exception of the tracker's hierarchy pass as
    it is, and never lets a built-in exception out; decorating it a second
    time, with any class and name, changes nothing. *)
Theorem handle_exceptions_is_idempotent {Args A : Type}
    (outer inner : option neo_class) (outer_name inner_name : string)
    (func : Args -> result A) (args : Args) :
  handle_exceptions outer outer_name
    (handle_exceptions inner inner_name func) args
  = handle_exceptions inner inner_name func args
  /\ match func args with
     | inr v => handle_exceptions inner inner_name func args = inr v
     | inl (NEOTracker e) =>
         handle_exceptions inner inner_name func args = inl (NEOTracker e)
     | inl (Builtin e) =>
         exists e', handle_exceptions inner inner_name func args
                    = inl (NEOTracker e')
                    /\ original_exception e' = Some e
                    /\ details e' = [("function", inner_name)]
                    /\ cls e' = match inner with
                                | Some c => c
                                | None => NEOTrackerException
                                end
     end.
Proof.
  unfold handle_exceptions.
  destruct (func args) as [[e|e]|v]; [|split; reflexivity..].
  destruct inner as [c|]; (split; [reflexivity|]);
    eexists; repeat split.
Qed.

(** X14: the text of a tracker exception starts with its message, and is
    the message alone when there are neither details nor an original
    exception; for the error [calculate_risk] raises it is the message,
    the function name as the only detail, and the text of the original
    exception. *)
Theorem full_message_shape (e : neo_exception) (o : builtin_exception) :
  String.prefix (message e) (_build_full_message e) = true
  /\ (details e = [] -> original_exception e = None ->
      _build_full_message e = message e)
  /\ _build_full_message
       {| cls := RiskCalculationError;
          message := "Error in calculate_risk";
          details := [("function", "calculate_risk")];
          original_exception := Some o |}
     = "Error in calculate_risk | Details: function=calculate_risk | Original: "
       ++ str_builtin o.
Proof.
  split; [|split].
  - unfold _build_full_message.
    destruct (details e) as [|kv rest], (original_exception e) as [o'|];
      cbv zeta iota beta.
    + apply prefix_append.
    + rewrite <- (prefix_append (message e) ""). f_equal.
      induction (message e) as [|x m IH]; cbn; [reflexivity|].
      rewrite <- IH. reflexivity.
    + rewrite append_assoc. apply prefix_append.
    + apply prefix_append.
  - intros Hd Ho. unfold _build_full_message. rewrite Hd, Ho. reflexivity.
  - reflexivity.
Qed.

(** ** The context manager *)

(** X15: a block run under [error_context] returns what it returns; a
    built-in exception of the block leaves as a [NEOTrackerException]
    that carries it, with the operation and the context as details; an
    exception of the tracker's hierarchy leaves with its class, message
    and original exception unchanged and with its details updated: the
    operation (so that of nested contexts the outermost names it) and
    every keyword of the context are set, every other key is kept. *)
Theorem error_context_outcomes {A : Type} (operation : string)
    (context_data : details_dict) (body : result A) :
  NoDup (map fst context_data) ->
  ~ In "operation" (map fst context_data) ->
  match body with
  | inr v => error_context operation context_data body = inr v
  | inl (Builtin b) =>
      error_context operation context_data body
      = inl (NEOTracker
               {| cls := NEOTrackerException;
                  message := "Error during " ++ operation;
                  details := ("operation", operation) :: context_data;
                  original_exception := Some b |})
  | inl (NEOTracker e) =>
      exists e',
        error_context operation context_data body = inl (NEOTracker e')
        /\ cls e' = cls e /\ message e' = message e
        /\ original_exception e' = original_exception e
        /\ details_get (details e') "operation" = Some operation
        /\ (forall k v, In (k, v) context_data ->
                        details_get (details e') k = Some v)
        /\ (forall k, k <> "operation" -> ~ In k (map fst context_data) ->
                      details_get (details e') k = details_get (details e) k)
  end.
Proof.
  intros Hnd Hn.
  pose proof (context_details_literal operation context_data Hnd Hn) as Hcd.
  assert (Hnd' : NoDup (map fst (("operation", operation) :: context_data)))
    by (cbn; constructor; assumption).
  destruct body as [[b|e]|v]; cbn [error_context]; [| |reflexivity].
  - rewrite Hcd. reflexivity.
  - eexists. split; [reflexivity|]. cbn [cls message original_exception details].
    rewrite Hcd.
    split; [reflexivity|]. split; [reflexivity|]. split; [reflexivity|].
    split; [|split].
    + apply get_update_in; [exact Hnd'|left; reflexivity].
    + intros k v Hin. apply get_update_in; [exact Hnd'|right; exact Hin].
    + intros k Hk Hnk. apply get_update_notin.
      cbn. intros [E|Hin]; [apply Hk; symmetry; exact E|contradiction].
Qed.

Lemma error_context_outcomes_witness :
  exists e',
    error_context "sync" [("asteroid_id", "123")]
      (error_context "parse" [("field", "diameter")]
         (inl (Builtin (ValueError "bad value")) : result nat))
    = inl (NEOTracker e')
    /\ details_get (details e') "operation" = Some "sync"
    /\ details_get (details e') "field" = Some "diameter"
    /\ details_get (details e') "asteroid_id" = Some "123".
Proof.
  destruct (error_context_outcomes (A := nat) "sync" [("asteroid_id", "123")]
              (error_context "parse" [("field", "diameter")]
                 (inl (Builtin (ValueError "bad value")))))
    as (e' & He & _ & _ & _ & Hop & Hctx & Hkeep).
  - repeat constructor. intros [].
  - cbn. intros [H|[]]. discriminate.
  - exists e'. split; [exact He|]. split; [exact Hop|].
    split.
    + rewrite Hkeep; [reflexivity|discriminate|].
      cbn. intros [H|[]]. discriminate.
    + apply Hctx. left. reflexivity.
Defined.

End ExceptionFacts.
